(** * rocket_engine/storage.py: a shallow embedding and its properties

    The module [rocket_engine.storage] holds two Django storage back ends
    for Google App Engine (the Blobstore one and the Cloud Storage one), the
    upload handler that recognises uploads already committed to the
    Blobstore, the uploaded-file adapter and the [serve_file] helper.

    Python classes become Rocq modules of the same name, methods keep their
    names ([exists] is spelled [exists_], a reserved word otherwise).
    Exceptions are values of [exn] carried by [result]; code that talks to
    the datastore or to the files service runs in the state-and-exception
    monad [M]. *)

From Stdlib Require Import ZArith Lia Ascii String.
From Stdlib.Strings Require Import Byte.
From stdpp Require Import base option list strings gmap.

Local Open Scope string_scope.
Local Open Scope Z_scope.

(** ** Exceptions and the state-and-exception monad *)

Inductive exn : Type :=
  | ValueError
  | AttributeError
  | TypeError
  | NotImplementedError
  | ImproperlyConfigured
  | StopFutureHandlers
  | EntityNotFoundError
  | BlobNotFoundError
  | ExistenceError
  | FinalizationError.

Inductive result (A : Type) : Type :=
  | Ok (a : A)
  | Raise (e : exn).
Arguments Ok {A} a.
Arguments Raise {A} e.

Definition is_Ok {A} (r : result A) : bool :=
  match r with Ok _ => true | Raise _ => false end.

(** [M S A]: a computation over a store [S] that returns an [A] or raises;
    the store reached when the exception was raised is kept, as in Python. *)
Definition M (S A : Type) : Type := S -> result A * S.

Definition ret {S A} (a : A) : M S A := fun s => (Ok a, s).
Definition raise {S A} (e : exn) : M S A := fun s => (Raise e, s).
Definition bind {S A B} (m : M S A) (k : A -> M S B) : M S B :=
  fun s => match m s with
           | (Ok a, s') => k a s'
           | (Raise e, s') => (Raise e, s')
           end.
Definition lift {S A} (r : result A) : M S A := fun s => (r, s).

Notation "'let*' x ':=' m 'in' k" := (bind m (fun x => k))
  (at level 10, x name, m at level 100, k at level 200).
Notation "'do' m 'then' k" := (bind m (fun _ => k))
  (at level 10, m at level 100, k at level 200).

(** Python bytes ([str] of Python 2) that are object content. *)
Abbreviation bytes := (list Byte.byte).

(** ** Python string methods used by the module *)

Module PyStr.

Definition backslash : ascii := "\"%char.
Definition slash : ascii := "/"%char.

(** [s.replace('\\', '/')]: both patterns are one character long, so the
    replacement is a character map. *)
Definition repl_char (c : ascii) : ascii :=
  if Ascii.eqb c backslash then slash else c.

Fixpoint replace_backslash (s : string) : string :=
  match s with
  | EmptyString => EmptyString
  | String c r => String (repl_char c) (replace_backslash r)
  end.

(** [s.lstrip('/')] *)
Fixpoint lstrip_slash (s : string) : string :=
  match s with
  | EmptyString => EmptyString
  | String c r => if Ascii.eqb c slash then lstrip_slash r else s
  end.

(** [s.split('/', 1)[0]]: what precedes the first '/', all of [s] when it
    has none. *)
Fixpoint split_first (s : string) : string :=
  match s with
  | EmptyString => EmptyString
  | String c r => if Ascii.eqb c slash then EmptyString
                  else String c (split_first r)
  end.

(** ['/' in s] *)
Fixpoint has_slash (s : string) : bool :=
  match s with
  | EmptyString => false
  | String c r => Ascii.eqb c slash || has_slash r
  end.

(** [unicode.isspace] on the code points below 256: U+0009..U+000D,
    U+001C..U+0020, U+0085 and U+00A0. *)
Definition is_space (c : ascii) : bool :=
  let n := nat_of_ascii c in
  ((9 <=? n) && (n <=? 13) || (28 <=? n) && (n <=? 32)
   || (n =? 133) || (n =? 160))%nat.

(** [s.lstrip()] *)
Fixpoint lstrip (s : string) : string :=
  match s with
  | EmptyString => EmptyString
  | String c r => if is_space c then lstrip r else s
  end.

(** [s.rstrip()] *)
Fixpoint rstrip (s : string) : string :=
  match s with
  | EmptyString => EmptyString
  | String c r =>
      match rstrip r with
      | EmptyString => if is_space c then EmptyString else String c EmptyString
      | r' => String c r'
      end
  end.

(** [s.strip()] *)
Definition strip (s : string) : string := rstrip (lstrip s).

(** Python truthiness of a string. *)
Definition nonempty (s : string) : bool :=
  match s with EmptyString => false | _ => true end.

End PyStr.

(** ** google.appengine.ext.blobstore, as far as the module uses it

    The SDK is not part of this repository; these definitions state the
    behaviour of its API that the module relies on.  A datastore maps the
    string of a blob key to the committed blob.  [BlobInfo(key)] keeps the
    key only and loads the entity at the first property access, which
    raises when there is no such entity; [BlobInfo.get(key)] returns a
    loaded [BlobInfo], or [None].  [BlobKey] is taken as a plain wrapper of
    the key string, and the entity a [BlobInfo] loads is looked up at each
    access rather than kept, which is the same as long as the blob is not
    deleted in between.  Keys are taken to be non-empty: the SDK refuses an
    empty key name with an error before any lookup, and no blob is ever
    committed under one; the properties of lookups and deletions by name are
    stated for names whose key part is not empty. *)

Module blobstore.

Definition BLOB_KEY_HEADER : string := "X-AppEngine-BlobKey".
Definition BLOB_RANGE_HEADER : string := "X-AppEngine-BlobRange".

(** [BlobKey(s)]; [str(key)] is [key_str key]. *)
Record BlobKey : Type := mkBlobKey { key_str : string }.

Record Blob : Type := mkBlob {
  blob_filename : string;
  blob_content_type : string;
  blob_data : bytes
}.

Definition blob_size (b : Blob) : Z := Z.of_nat (length (blob_data b)).

Abbreviation Datastore := (gmap string Blob).

Record BlobInfo : Type := mkBlobInfo {
  bi_key : BlobKey;
  bi_entity : option Blob
}.

(** [BlobInfo(key)] *)
Definition BlobInfo_of_key (k : BlobKey) : BlobInfo := mkBlobInfo k None.

(** [info.key()] *)
Definition key (bi : BlobInfo) : BlobKey := bi_key bi.

(** [BlobInfo.get(key)] *)
Definition BlobInfo_get (k : BlobKey) : M Datastore (option BlobInfo) :=
  fun ds => (Ok (mkBlobInfo k ∘ Some <$> ds !! key_str k), ds).

(** The entity behind a property access. *)
Definition get_value (bi : BlobInfo) : M Datastore Blob :=
  match bi_entity bi with
  | Some b => ret b
  | None => fun ds =>
      match ds !! key_str (bi_key bi) with
      | Some b => (Ok b, ds)
      | None => (Raise EntityNotFoundError, ds)
      end
  end.

Definition filename (bi : BlobInfo) : M Datastore string :=
  let* b := get_value bi in ret (blob_filename b).
Definition content_type (bi : BlobInfo) : M Datastore string :=
  let* b := get_value bi in ret (blob_content_type b).
Definition size (bi : BlobInfo) : M Datastore Z :=
  let* b := get_value bi in ret (blob_size b).

(** [blobstore.delete(key)] *)
Definition delete (k : BlobKey) : M Datastore unit :=
  fun ds => (Ok tt, base.delete (key_str k) ds).

(** [BlobReader(key)]: a cursor over the blob's bytes. *)
Record BlobReader : Type := mkBlobReader {
  reader_key : BlobKey;
  reader_pos : nat
}.

Definition BlobReader_of_key (k : BlobKey) : BlobReader := mkBlobReader k 0.

(** [reader.seek(offset)] *)
Definition seek (offset : Z) (r : BlobReader) : BlobReader :=
  mkBlobReader (reader_key r) (Z.to_nat offset).

(** [reader.read(size)]: at most [size] bytes from the cursor, all that is
    left when [size] is negative; the cursor moves past what was read. *)
Definition read (size : Z) (r : BlobReader) : M Datastore (bytes * BlobReader) :=
  fun ds =>
    match ds !! key_str (reader_key r) with
    | None => (Raise BlobNotFoundError, ds)
    | Some b =>
        let rest := drop (reader_pos r) (blob_data b) in
        let out := if size <? 0 then rest else take (Z.to_nat size) rest in
        (Ok (out, mkBlobReader (reader_key r) (reader_pos r + length out)), ds)
    end.

End blobstore.

(** ** Django objects at the module's boundary *)

(** What [request.META] and a response's headers hold. *)
Inductive header_value : Type :=
  | HStr (s : string)
  | HInt (n : Z)
  | HNone.

Record HttpRequest : Type := mkHttpRequest {
  META : gmap string string
}.

(** A response, as far as [serve_file] fills it: its headers. *)
Record HttpResponse : Type := mkHttpResponse {
  resp_headers : gmap string header_value
}.

(** The content type Django gives a response that is built without one
    (its default settings). *)
Definition DEFAULT_CONTENT_TYPE : string := "text/html; charset=utf-8".

(** [HttpResponse(content_type=...)]: the constructor stores the content
    type as the 'Content-Type' header, the default one when [None] is
    passed.  (Older versions of Django take the default for an empty string
    too; the properties are stated for [None] and for non-empty types.) *)
Definition HttpResponse_new (content_type : option string) : HttpResponse :=
  mkHttpResponse
    {[ "Content-Type" :=
         HStr (match content_type with
               | Some s => s
               | None => DEFAULT_CONTENT_TYPE
               end) ]}.

(** [response[name] = value] *)
Definition set_header (name : string) (v : header_value) (r : HttpResponse)
  : HttpResponse :=
  mkHttpResponse (<[name := v]> (resp_headers r)).

(** Django's [UploadedFile] does not keep the name it is given as it is:
    the setter of [name] keeps the base name only (what follows the last
    '/') and, when that is longer than 255 characters, cuts the part before
    the extension so that 255 remain. *)
Module UploadedFile.

(** [os.path.basename(name)] *)
Fixpoint basename (s : string) : string :=
  match s with
  | EmptyString => EmptyString
  | String c r =>
      if PyStr.has_slash r then basename r
      else if Ascii.eqb c PyStr.slash then r
      else String c r
  end.

Definition dot : ascii := "."%char.

(** [p.rfind('.')] *)
Fixpoint rfind_dot (p : string) : option nat :=
  match p with
  | EmptyString => None
  | String c r =>
      match rfind_dot r with
      | Some i => Some (S i)
      | None => if Ascii.eqb c dot then Some O else None
      end
  end.

Fixpoint all_dots (p : string) : bool :=
  match p with
  | EmptyString => true
  | String c r => Ascii.eqb c dot && all_dots r
  end.

(** [os.path.splitext(p)] for a [p] without '/': the split is at the last
    dot, unless only dots precede it. *)
Definition splitext (p : string) : string * string :=
  match rfind_dot p with
  | Some d =>
      if all_dots (substring 0 d p) then (p, EmptyString)
      else (substring 0 d p, substring d (String.length p - d) p)
  | None => (p, EmptyString)
  end.

(** [s[:k]] *)
Definition slice_to (s : string) (k : Z) : string :=
  let len := Z.of_nat (String.length s) in
  let stop := if k <? 0 then Z.max (len + k) 0 else Z.min k len in
  substring 0 (Z.to_nat stop) s.

(** The setter of [name]. *)
Definition _set_name (name : string) : string :=
  let name := basename name in
  if 255 <? Z.of_nat (String.length name) then
    let (stem, ext) := splitext name in
    slice_to stem (255 - Z.of_nat (String.length ext)) ++ ext
  else name.

End UploadedFile.

(** The value of a [blobstore_info] attribute. *)
Inductive attr_value : Type :=
  | VBlobInfo (bi : blobstore.BlobInfo)
  | VBlobKey (k : blobstore.BlobKey)
  | VNone
  | VOther.

(** [v.key()]: only a [BlobInfo] has the method. *)
Definition call_key (v : attr_value) : result blobstore.BlobKey :=
  match v with
  | VBlobInfo bi => Ok (blobstore.key bi)
  | _ => Raise AttributeError
  end.

(** A file object as the duck-typed code sees it: [fl_file] is [Some] when
    [hasattr(f, 'file')], and then says whether [f.file] has a
    [blobstore_info] attribute; [fl_blobstore_info] is [Some] when
    [hasattr(f, 'blobstore_info')]; [fl_size] is the property [f.size]. *)
Record inner_file : Type := mkInner {
  in_blobstore_info : option attr_value
}.

Record file_like : Type := mkFileLike {
  fl_file : option inner_file;
  fl_blobstore_info : option attr_value;
  fl_size : M blobstore.Datastore (option Z)
}.

(** [hasattr(f, 'file') and hasattr(f.file, 'blobstore_info')], with the
    attribute's value. *)
Definition inner_info (f : file_like) : option attr_value :=
  match fl_file f with
  | Some i => in_blobstore_info i
  | None => None
  end.

(** ** rocket_engine.storage *)

(** [serve_file(request, file, save_as, content_type)].  [save_as] is
    [None] for a false value and a string otherwise; [file.size] is read
    twice, as in the source. *)
Definition serve_file (request : HttpRequest) (file : file_like)
    (save_as : option string) (content_type : option string)
  : M blobstore.Datastore HttpResponse :=
  let* blobkey :=
    lift (match inner_info file with
          | Some v => call_key v
          | None =>
              match fl_blobstore_info file with
              | Some v => call_key v
              | None => Raise ValueError
              end
          end) in
  let response := HttpResponse_new content_type in
  let response :=
    set_header blobstore.BLOB_KEY_HEADER (HStr (blobstore.key_str blobkey)) response in
  let response := set_header "Accept-Ranges" (HStr "bytes") response in
  let http_range := META request !! "HTTP_RANGE" in
  let response :=
    match http_range with
    | Some r => set_header blobstore.BLOB_RANGE_HEADER (HStr r) response
    | None => response
    end in
  let response :=
    match save_as with
    | Some s =>
        if PyStr.nonempty s
        then set_header "Content-Disposition"
                        (HStr ("attachment; filename=" ++ s)) response
        else response
    | None => response
    end in
  let* sz := fl_size file in
  match sz with
  | None => ret response
  | Some _ =>
      let* sz' := fl_size file in
      ret (set_header "Content-Length"
                      (match sz' with Some n => HInt n | None => HNone end)
                      response)
  end.

Module BlobstoreFile.

Record t : Type := mk {
  name : string;
  _mode : string;
  blobstore_info : option blobstore.BlobInfo;
  _file : option blobstore.BlobReader
}.

(** [BlobstoreFile(name, mode, storage)]; of [storage] only
    [storage._get_blobinfo] is used. *)
Definition __init__
    (storage_get_blobinfo : string -> M blobstore.Datastore (option blobstore.BlobInfo))
    (name mode : string) : M blobstore.Datastore t :=
  let* info := storage_get_blobinfo name in
  ret (mk name mode info None).

(** property [size] *)
Definition size (self : t) : M blobstore.Datastore Z :=
  match blobstore_info self with
  | Some bi => blobstore.size bi
  | None => raise AttributeError
  end.

Definition write (self : t) (content : bytes) : M blobstore.Datastore unit :=
  raise NotImplementedError.

(** property [file]: the reader is made at the first access and kept. *)
Definition file (self : t) : result (blobstore.BlobReader * t) :=
  match _file self with
  | Some r => Ok (r, self)
  | None =>
      match blobstore_info self with
      | Some bi =>
          let r := blobstore.BlobReader_of_key (blobstore.key bi) in
          Ok (r, mk (name self) (_mode self) (blobstore_info self) (Some r))
      | None => Raise AttributeError
      end
  end.

(** The object as [serve_file] and [_save] probe it: [hasattr(f, 'file')]
    holds when the property does not raise, and a [BlobReader] has no
    [blobstore_info]. *)
Definition as_file_like (self : t) : file_like :=
  mkFileLike
    (match file self with Ok _ => Some (mkInner None) | Raise _ => None end)
    (Some (match blobstore_info self with
           | Some bi => VBlobInfo bi
           | None => VNone
           end))
    (let* n := size self in ret (Some n)).

End BlobstoreFile.

Module BlobstoreStorage.

Definition _get_key (name : string) : blobstore.BlobKey :=
  blobstore.mkBlobKey (PyStr.split_first name).

Definition _get_blobinfo (name : string)
  : M blobstore.Datastore (option blobstore.BlobInfo) :=
  blobstore.BlobInfo_get (_get_key name).

Definition _open (name mode : string) : M blobstore.Datastore BlobstoreFile.t :=
  BlobstoreFile.__init__ _get_blobinfo name mode.

Definition _save (name : string) (content : file_like)
  : M blobstore.Datastore string :=
  let name := PyStr.replace_backslash name in
  let* data :=
    lift (match inner_info content with
          | Some v => Ok v
          | None =>
              match fl_blobstore_info content with
              | Some v => Ok v
              | None => Raise ValueError
              end
          end) in
  match data with
  | VBlobInfo bi =>
      ret (blobstore.key_str (blobstore.key bi) ++ "/" ++ PyStr.lstrip_slash name)
  | VBlobKey k =>
      ret (blobstore.key_str k ++ "/" ++ PyStr.lstrip_slash name)
  | _ => raise ValueError
  end.

Definition delete (name : string) : M blobstore.Datastore unit :=
  blobstore.delete (_get_key name).

Definition exists_ (name : string) : M blobstore.Datastore bool :=
  let* info := _get_blobinfo name in
  ret (match info with Some _ => true | None => false end).

Definition size (name : string) : M blobstore.Datastore Z :=
  let* info := _get_blobinfo name in
  match info with
  | Some bi => blobstore.size bi
  | None => raise AttributeError
  end.

Definition url (name : string) : M blobstore.Datastore string :=
  raise NotImplementedError.

(** [force_unicode] is the identity on a name that is text already. *)
Definition get_valid_name (name : string) : M blobstore.Datastore string :=
  ret (PyStr.replace_backslash (PyStr.strip name)).

Definition get_available_name (name : string) : M blobstore.Datastore string :=
  ret (PyStr.replace_backslash name).

End BlobstoreStorage.

Module BlobstoreUploadedFile.

(** The attributes [UploadedFile.__init__] stores, and [blobstore_info];
    [name] goes through the setter of [UploadedFile]. *)
Record t : Type := mk {
  file : blobstore.BlobReader;
  name : string;
  content_type : string;
  size : Z;
  charset : option string;
  blobstore_info : blobstore.BlobInfo
}.

Definition __init__ (blobinfo : blobstore.BlobInfo) (charset : option string)
  : M blobstore.Datastore t :=
  let reader := blobstore.BlobReader_of_key (blobstore.key blobinfo) in
  let* filename := blobstore.filename blobinfo in
  let* content_type := blobstore.content_type blobinfo in
  let* size := blobstore.size blobinfo in
  ret (mk reader (UploadedFile._set_name filename) content_type size charset
          blobinfo).

Definition open (self : t) (mode : option string) : unit := tt.

Definition with_file (self : t) (r : blobstore.BlobReader) : t :=
  mk r (name self) (content_type self) (size self) (charset self)
     (blobstore_info self).

(** [self.read], which Django's file proxy forwards to [self.file.read]. *)
Definition read (n : Z) (self : t) : M blobstore.Datastore (bytes * t) :=
  let* r := blobstore.read n (file self) in
  ret (fst r, with_file self (snd r)).

(** The [while True] loop of [chunks]; [None] when [fuel] iterations did
    not reach the empty read. *)
Fixpoint chunks_loop (fuel : nat) (chunk_size : Z) (self : t)
  : M blobstore.Datastore (option (list bytes) * t) :=
  match fuel with
  | O => ret (None, self)
  | S fuel' =>
      let* r := read chunk_size self in
      match fst r with
      | [] => ret (Some [], snd r)
      | content =>
          let* rest := chunks_loop fuel' chunk_size (snd r) in
          ret (cons content <$> fst rest, snd rest)
      end
  end.

(** [chunks(chunk_size)], run to the end of the generator: the chunks it
    yields, in order, and the object it leaves. *)
Definition chunks (fuel : nat) (chunk_size : Z) (self : t)
  : M blobstore.Datastore (option (list bytes) * t) :=
  chunks_loop fuel chunk_size (with_file self (blobstore.seek 0 (file self))).

Definition multiple_chunks (self : t) (chunk_size : Z) : bool := true.

Definition as_file_like (self : t) : file_like :=
  mkFileLike (Some (mkInner None)) (Some (VBlobInfo (blobstore_info self)))
             (ret (Some (size self))).

End BlobstoreUploadedFile.

Module BlobstoreFileUploadHandler.

(** The arguments of [new_file]; the multipart parser passes a dict for
    [content_type_extra]. *)
Record part_meta : Type := mkPart {
  pm_field_name : string;
  pm_file_name : string;
  pm_content_type : string;
  pm_content_length : option Z;
  pm_charset : option string;
  pm_content_type_extra : gmap string string
}.

(** [part] holds what [FileUploadHandler.new_file] stored; [active] and
    [blobkey] are [None] while the attribute is not set. *)
Record t : Type := mk {
  part : option part_meta;
  active : option bool;
  blobkey : option blobstore.BlobKey
}.

Definition initial : t := mk None None None.

Definition charset (self : t) : option string :=
  match part self with Some p => pm_charset p | None => None end.

Definition new_file (args : part_meta) : M t unit :=
  fun self =>
    let self := mk (Some args) (active self) (blobkey self) in
    let blobkey' := pm_content_type_extra args !! "blob-key" in
    let self :=
      mk (part self)
         (Some (match blobkey' with Some _ => true | None => false end))
         (blobkey self) in
    match blobkey' with
    | Some k =>
        (Raise StopFutureHandlers,
         mk (part self) (active self) (Some (blobstore.mkBlobKey k)))
    | None => (Ok tt, self)
    end.

Definition receive_data_chunk (raw_data : bytes) (start : Z) : M t (option bytes) :=
  fun self =>
    match active self with
    | None => (Raise AttributeError, self)
    | Some false => (Ok (Some raw_data), self)
    | Some true => (Ok None, self)
    end.

Definition file_complete (file_size : Z) (self : t)
  : M blobstore.Datastore (option BlobstoreUploadedFile.t) :=
  match active self with
  | None => raise AttributeError
  | Some false => ret None
  | Some true =>
      match blobkey self with
      | None => raise AttributeError
      | Some k =>
          let* f := BlobstoreUploadedFile.__init__
                      (blobstore.BlobInfo_of_key k) (charset self) in
          ret (Some f)
      end
  end.

(** The states of the interceptor, read off the handler. *)
Inductive state : Type := WATCHING | PASSTHROUGH | SHORT_CIRCUITED.

Definition state_of (self : t) : state :=
  match active self with
  | None => WATCHING
  | Some false => PASSTHROUGH
  | Some true => SHORT_CIRCUITED
  end.

(** The chunks of one part handed to the handler in turn: what each call
    returns, i.e. what goes on to the next handler. *)
Fixpoint feed (chunks : list (bytes * Z)) : M t (list (option bytes)) :=
  match chunks with
  | [] => ret []
  | (raw_data, start) :: rest =>
      let* out := receive_data_chunk raw_data start in
      let* outs := feed rest in
      ret (out :: outs)
  end.

End BlobstoreFileUploadHandler.

(** ** google.appengine.api.files, as far as the module uses it

    A file under a Cloud Storage name is first created writable, appended
    to, and becomes readable when it is finalized.  The writable name that
    [files.gs.create] returns is modelled by the file name itself, looked up
    among the writable files. *)

Module files.

Record FileSystem : Type := mkFS {
  objects : gmap string bytes;
  writable : gmap string bytes
}.

Definition empty_fs : FileSystem := mkFS ∅ ∅.

Inductive mode : Type := ModeR | ModeA.

Record handle : Type := mkHandle {
  h_path : string;
  h_mode : mode;
  h_pos : nat
}.

(** [files.gs.create(filename, mime_type=..., acl=...)] *)
Definition gs_create (filename : string) : M FileSystem string :=
  fun fs => (Ok filename, mkFS (objects fs) (<[filename := []]> (writable fs))).

(** [files.open(filename, mode)] *)
Definition open (filename : string) (m : mode) : M FileSystem handle :=
  fun fs =>
    match m with
    | ModeR =>
        match objects fs !! filename, writable fs !! filename with
        | Some _, _ => (Ok (mkHandle filename ModeR 0), fs)
        | None, Some _ => (Raise FinalizationError, fs)
        | None, None => (Raise ExistenceError, fs)
        end
    | ModeA =>
        match writable fs !! filename, objects fs !! filename with
        | Some _, _ => (Ok (mkHandle filename ModeA 0), fs)
        | None, Some _ => (Raise FinalizationError, fs)
        | None, None => (Raise ExistenceError, fs)
        end
    end.

(** [f.read(size)] *)
Definition read (size : Z) (f : handle) : M FileSystem (bytes * handle) :=
  fun fs =>
    match objects fs !! h_path f with
    | None => (Raise ExistenceError, fs)
    | Some data =>
        let rest := drop (h_pos f) data in
        let out := if size <? 0 then rest else take (Z.to_nat size) rest in
        (Ok (out, mkHandle (h_path f) (h_mode f) (h_pos f + length out)), fs)
    end.

(** [f.tell()] *)
Definition tell (f : handle) : Z := Z.of_nat (h_pos f).

(** [f.write(data)] *)
Definition write (data : bytes) (f : handle) : M FileSystem unit :=
  fun fs =>
    match writable fs !! h_path f with
    | None => (Raise FinalizationError, fs)
    | Some old =>
        (Ok tt, mkFS (objects fs) (<[h_path f := (old ++ data)%list]> (writable fs)))
    end.

(** [files.finalize(filename)] *)
Definition finalize (filename : string) : M FileSystem unit :=
  fun fs =>
    match writable fs !! filename with
    | None => (Raise FinalizationError, fs)
    | Some data =>
        (Ok tt, mkFS (<[filename := data]> (objects fs))
                     (base.delete filename (writable fs)))
    end.

End files.

(** An in-memory stream: [StringIO(buf)], and the content handed to [save]. *)
Record StringIO : Type := mkStringIO {
  sio_buf : bytes;
  sio_pos : nat
}.

Definition StringIO_new (buf : bytes) : StringIO := mkStringIO buf 0.

(** [stream.read()] *)
Definition StringIO_read_all (s : StringIO) : bytes * StringIO :=
  (drop (sio_pos s) (sio_buf s), mkStringIO (sio_buf s) (length (sio_buf s))).

(** What the module passes to [ContentFile]. *)
Inductive py_content : Type :=
  | PyRaw (s : bytes)
  | PyStream (s : StringIO).

(** Django's [ContentFile], "a File-like object that takes just raw content,
    rather than an actual file": the constructor wraps the content in a
    stream of its own and stores [len(content)] as the size; a stream object
    has no length, and [len] raises [TypeError]. *)
Module ContentFile.

Record t : Type := mk {
  file : StringIO;
  size : Z
}.

Definition __init__ (content : py_content) : result t :=
  match content with
  | PyRaw s => Ok (mk (StringIO_new s) (Z.of_nat (length s)))
  | PyStream _ => Raise TypeError
  end.

End ContentFile.

Module CloudStorage.

Record t : Type := mk {
  base_url : string;
  location : string
}.

(** [CloudStorage()]; the argument is [settings.APPENGINE_BUCKET], [None]
    when the setting is missing. *)
Definition __init__ (APPENGINE_BUCKET : option string) : result t :=
  match APPENGINE_BUCKET with
  | None => Raise ImproperlyConfigured
  | Some bucket_name =>
      Ok (mk ("//" ++ bucket_name ++ ".commondatastorage.googleapis.com/")
             ("/gs/" ++ bucket_name ++ "/"))
  end.

(** The [while data != ""] loop of [_open], entered with the last read
    [data]; [None] when [fuel] iterations did not reach the empty read. *)
Fixpoint _open_loop (fuel : nat) (data : bytes) (f : files.handle)
    (file_data : list bytes)
  : M files.FileSystem (option (list bytes)) :=
  match data with
  | [] => ret (Some file_data)
  | _ =>
      match fuel with
      | O => ret None
      | S fuel' =>
          let* r := files.read 1 f in
          _open_loop fuel' (fst r) (snd r) (file_data ++ [fst r])%list
      end
  end.

(** The bytes [_open] joins before it builds the handle. *)
Definition _open_data (fuel : nat) (self : t) (name : string)
  : M files.FileSystem (option bytes) :=
  let* f := files.open (location self ++ name) files.ModeR in
  let* r := files.read 1 f in
  let* file_data := _open_loop fuel (fst r) (snd r) [fst r] in
  ret (List.concat (A:=Byte.byte) <$> file_data).

Definition _open (fuel : nat) (self : t) (name : string)
  : M files.FileSystem (option ContentFile.t) :=
  let* joined := _open_data fuel self name in
  match joined with
  | None => ret None
  | Some s =>
      let* cf := lift (ContentFile.__init__ (PyStream (StringIO_new s))) in
      ret (Some cf)
  end.

Definition save (self : t) (name : string) (content : StringIO)
  : M files.FileSystem string :=
  let* write_path := files.gs_create (location self ++ name) in
  let* fp := files.open write_path files.ModeA in
  do files.write (fst (StringIO_read_all content)) fp then
  do files.finalize write_path then
  ret name.

Definition exists_ (self : t) (name : string) : M files.FileSystem bool :=
  fun fs =>
    match files.open (location self ++ name) files.ModeR fs with
    | (Ok _, fs') => (Ok true, fs')
    | (Raise ExistenceError, fs') => (Ok false, fs')
    | (Raise e, fs') => (Raise e, fs')
    end.

(** The [while data != ""] loop of [size]. *)
Fixpoint size_loop (fuel : nat) (data : bytes) (f : files.handle)
  : M files.FileSystem (option files.handle) :=
  match data with
  | [] => ret (Some f)
  | _ =>
      match fuel with
      | O => ret None
      | S fuel' =>
          let* r := files.read 1 f in
          size_loop fuel' (fst r) (snd r)
      end
  end.

Definition size (fuel : nat) (self : t) (name : string)
  : M files.FileSystem (option Z) :=
  let* f := files.open (location self ++ name) files.ModeR in
  let* r := files.read 1 f in
  let* f' := size_loop fuel (fst r) (snd r) in
  ret (files.tell <$> f').

Definition url (self : t) (name : string) : string :=
  base_url self ++ name.

End CloudStorage.

(** ** Vocabulary of the properties *)

(** The [blobstore_info] that [serve_file] and [_save] pick: the one of
    [f.file] when there is one, else the one of [f]. *)
Definition carried (f : file_like) : option attr_value :=
  match inner_info f with
  | Some v => Some v
  | None => fl_blobstore_info f
  end.

(** The values [_save] accepts as a reference to a blob. *)
Definition is_reference (v : attr_value) : bool :=
  match v with
  | VBlobInfo _ | VBlobKey _ => true
  | VNone | VOther => false
  end.

(** What a [read(c)] returns when [rest] is what lies after the cursor. *)
Definition read_out (c : Z) (rest : bytes) : bytes :=
  if c <? 0 then rest else take (Z.to_nat c) rest.

(** ** Sample objects *)

Module Sample.

Definition hello : bytes := [x68; x65; x6c; x6c; x6f]%byte.

Definition blob : blobstore.Blob := blobstore.mkBlob "a.txt" "text/plain" hello.

(** A datastore with one committed blob, under the key "abc". *)
Definition ds : gmap string blobstore.Blob := {[ "abc" := blob ]}.

Definition info : blobstore.BlobInfo :=
  blobstore.BlobInfo_of_key (blobstore.mkBlobKey "abc").

(** The file object the upload handler makes for that blob. *)
Definition uploaded : BlobstoreUploadedFile.t :=
  BlobstoreUploadedFile.mk
    (blobstore.BlobReader_of_key (blobstore.mkBlobKey "abc"))
    "a.txt" "text/plain" 5 None info.

(** A plain in-memory file: no [blobstore_info] anywhere. *)
Definition plain : file_like :=
  mkFileLike (Some (mkInner None)) None (ret (Some 5)).

Definition part (extra : gmap string string)
  : BlobstoreFileUploadHandler.part_meta :=
  BlobstoreFileUploadHandler.mkPart "file" "a.txt" "text/plain" None None extra.

Definition request : HttpRequest :=
  mkHttpRequest {[ "HTTP_RANGE" := "bytes=10-20" ]}.

Definition bucket : CloudStorage.t :=
  CloudStorage.mk "//b.commondatastorage.googleapis.com/" "/gs/b/".

End Sample.

(** A blob whose client-side filename has a directory part. *)
Module SamplePath.

Definition blob : blobstore.Blob :=
  blobstore.mkBlob "docs/a.txt" "text/plain" Sample.hello.

Definition ds : gmap string blobstore.Blob := {[ "abc" := blob ]}.

End SamplePath.

(** * Properties *)

(** ** String methods *)

Section PyStrFacts.

Import PyStr.

Lemma repl_char_idem c : repl_char (repl_char c) = repl_char c.
Proof.
  unfold repl_char. destruct (Ascii.eqb c backslash) eqn:E; [reflexivity|].
  now rewrite E.
Qed.

Lemma replace_backslash_idem s :
  replace_backslash (replace_backslash s) = replace_backslash s.
Proof. induction s as [|c r IH]; simpl; [reflexivity|]. now rewrite repl_char_idem, IH. Qed.

Lemma is_space_repl_char c : is_space (repl_char c) = is_space c.
Proof.
  unfold repl_char. destruct (Ascii.eqb c backslash) eqn:E; [|reflexivity].
  apply Ascii.eqb_eq in E. subst c. reflexivity.
Qed.

Lemma lstrip_replace s :
  lstrip (replace_backslash s) = replace_backslash (lstrip s).
Proof.
  induction s as [|c r IH]; simpl; [reflexivity|].
  rewrite is_space_repl_char. destruct (is_space c); [exact IH | reflexivity].
Qed.

Lemma replace_backslash_empty s :
  replace_backslash s = EmptyString -> s = EmptyString.
Proof. destruct s; simpl; [reflexivity | discriminate]. Qed.

Lemma rstrip_replace s :
  rstrip (replace_backslash s) = replace_backslash (rstrip s).
Proof.
  induction s as [|c r IH]; simpl; [reflexivity|].
  rewrite IH, is_space_repl_char.
  destruct (rstrip r) as [|c' r'] eqn:E; simpl.
  - destruct (is_space c); reflexivity.
  - reflexivity.
Qed.

Lemma strip_replace s :
  strip (replace_backslash s) = replace_backslash (strip s).
Proof. unfold strip. now rewrite lstrip_replace, rstrip_replace. Qed.

Lemma lstrip_idem s : lstrip (lstrip s) = lstrip s.
Proof.
  induction s as [|c r IH]; simpl; [reflexivity|].
  destruct (is_space c) eqn:E; [exact IH|]. simpl. now rewrite E.
Qed.

Lemma rstrip_idem s : rstrip (rstrip s) = rstrip s.
Proof.
  induction s as [|c r IH]; simpl; [reflexivity|].
  destruct (rstrip r) as [|c' r'] eqn:E.
  - destruct (is_space c) eqn:Ec; simpl; [reflexivity|]. now rewrite Ec.
  - simpl in *. rewrite IH. reflexivity.
Qed.

(** A string without leading blanks keeps that after [rstrip]. *)
Lemma lstrip_rstrip_fixed s : lstrip s = s -> lstrip (rstrip s) = rstrip s.
Proof.
  destruct s as [|c r]; simpl; [reflexivity|].
  destruct (is_space c) eqn:E.
  - intros H. exfalso.
    assert (Hlen : forall t, (String.length (lstrip t) <= String.length t)%nat).
    { induction t as [|d t IH]; simpl; [lia|].
      destruct (is_space d); simpl; lia. }
    specialize (Hlen r). rewrite H in Hlen. simpl in Hlen. lia.
  - intros _. destruct (rstrip r); simpl; now rewrite E.
Qed.

Lemma strip_idem s : strip (strip s) = strip s.
Proof.
  unfold strip.
  rewrite (lstrip_rstrip_fixed (lstrip s)); [|apply lstrip_idem].
  apply rstrip_idem.
Qed.

Lemma string_app_cons c (r t : string) : String c r ++ t = String c (r ++ t).
Proof. reflexivity. Qed.

Lemma string_app_empty (t : string) : EmptyString ++ t = t.
Proof. reflexivity. Qed.

Lemma split_first_app k rest :
  has_slash k = false -> split_first (k ++ String slash rest) = k.
Proof.
  induction k as [|c r IH]; intros H.
  - rewrite string_app_empty. reflexivity.
  - rewrite string_app_cons. simpl in *.
    destruct (Ascii.eqb c slash); simpl in *; [discriminate|].
    now rewrite IH.
Qed.

Lemma string_app_length (s t : string) :
  String.length (s ++ t) = (String.length s + String.length t)%nat.
Proof.
  induction s as [|c r IH]; [reflexivity|].
  rewrite string_app_cons. simpl. now rewrite IH.
Qed.

Lemma string_app_inv_tail (s1 s2 t : string) : s1 ++ t = s2 ++ t -> s1 = s2.
Proof.
  revert s2. induction s1 as [|c r IH]; intros [|c' r'] H.
  - reflexivity.
  - apply (f_equal String.length) in H.
    rewrite !string_app_length in H. simpl in H. lia.
  - apply (f_equal String.length) in H.
    rewrite !string_app_length in H. simpl in H. lia.
  - rewrite !string_app_cons in H. injection H as -> H. f_equal. now apply IH.
Qed.

Lemma replace_backslash_get s i :
  String.get i (replace_backslash s) = option_map repl_char (String.get i s).
Proof.
  revert i. induction s as [|c r IH]; intros i; simpl; [reflexivity|].
  destruct i; simpl; [reflexivity | apply IH].
Qed.

End PyStrFacts.

(** ** The Blobstore storage back end *)

Section BlobstoreStorageFacts.

Import PyStr.

Implicit Types (ds : gmap string blobstore.Blob) (content : file_like).

(** [_save] by the reference the content carries. *)
Lemma _save_carried name content ds :
  BlobstoreStorage._save name content ds =
    match carried content with
    | Some (VBlobInfo bi) =>
        (Ok (blobstore.key_str (blobstore.key bi) ++ "/"
             ++ lstrip_slash (replace_backslash name)), ds)
    | Some (VBlobKey k) =>
        (Ok (blobstore.key_str k ++ "/"
             ++ lstrip_slash (replace_backslash name)), ds)
    | _ => (Raise ValueError, ds)
    end.
Proof.
  unfold BlobstoreStorage._save, carried, bind, lift, ret, raise.
  destruct (inner_info content) as [v|];
    [|destruct (fl_blobstore_info content) as [v|]; [|reflexivity]];
    destruct v; reflexivity.
Qed.

Lemma get_blobinfo_lookup name ds :
  BlobstoreStorage._get_blobinfo name ds =
    (Ok (blobstore.mkBlobInfo (BlobstoreStorage._get_key name) ∘ Some
           <$> ds !! split_first name), ds).
Proof. reflexivity. Qed.

End BlobstoreStorageFacts.

(** C8: both name normalisations of the Blobstore back end are idempotent:
    applying [get_valid_name] (strip, then backslashes to slashes) to its own
    result gives that result again, and so does [get_available_name]
    (backslashes to slashes). *)
Theorem normalize_idempotent (n : string) (ds : gmap string blobstore.Blob) :
  (let* m := BlobstoreStorage.get_valid_name n in
   BlobstoreStorage.get_valid_name m) ds
    = BlobstoreStorage.get_valid_name n ds
  /\ (let* m := BlobstoreStorage.get_available_name n in
      BlobstoreStorage.get_available_name m) ds
    = BlobstoreStorage.get_available_name n ds.
Proof.
  unfold BlobstoreStorage.get_valid_name, BlobstoreStorage.get_available_name,
    bind, ret.
  split.
  - now rewrite strip_replace, replace_backslash_idem, strip_idem.
  - now rewrite replace_backslash_idem.
Qed.

(** C10: [get_available_name] returns the name with each backslash turned
    into a '/' and every other character kept, at the same position and
    with the same length, so that the result holds no backslash; it neither
    reads nor changes the datastore, so its answer is the same whatever is
    stored.  Two contents carrying different blobs and saved under that one
    name get canonical names with the same path part (the name itself when
    it does not begin with '/'), which differ exactly when the keys
    differ. *)
Theorem get_available_name_ignores_store (name : string)
    (ds ds' : gmap string blobstore.Blob) :
  exists r,
    BlobstoreStorage.get_available_name name ds = (Ok r, ds)
    /\ BlobstoreStorage.get_available_name name ds' = (Ok r, ds')
    /\ String.length r = String.length name
    /\ (forall i c, String.get i name = Some c ->
          String.get i r
          = Some (if Ascii.eqb c "\"%char then "/"%char else c))
    /\ (forall i, String.get i r <> Some "\"%char)
    /\ forall (bi1 bi2 : blobstore.BlobInfo) (c1 c2 : file_like),
         carried c1 = Some (VBlobInfo bi1) ->
         carried c2 = Some (VBlobInfo bi2) ->
         exists tail,
           BlobstoreStorage._save r c1 ds
             = (Ok (blobstore.key_str (blobstore.key bi1) ++ "/" ++ tail), ds)
           /\ BlobstoreStorage._save r c2 ds
             = (Ok (blobstore.key_str (blobstore.key bi2) ++ "/" ++ tail), ds)
           /\ (String.get 0 r <> Some "/"%char -> tail = r)
           /\ (blobstore.key_str (blobstore.key bi1) ++ "/" ++ tail
               = blobstore.key_str (blobstore.key bi2) ++ "/" ++ tail
               <-> blobstore.key_str (blobstore.key bi1)
                   = blobstore.key_str (blobstore.key bi2)).
Proof.
  exists (PyStr.replace_backslash name).
  split; [reflexivity|]. split; [reflexivity|]. split; [|split; [|split]].
  - induction name as [|c r IH]; simpl; [reflexivity | now rewrite IH].
  - intros i c Hc. rewrite replace_backslash_get, Hc. reflexivity.
  - intros i. rewrite replace_backslash_get.
    destruct (String.get i name) as [c|]; simpl; [|discriminate].
    unfold PyStr.repl_char, PyStr.backslash, PyStr.slash.
    destruct (Ascii.eqb c "\"%char) eqn:E; [discriminate|].
    intros H. injection H as ->. discriminate E.
  - intros bi1 bi2 c1 c2 H1 H2.
    exists (PyStr.lstrip_slash (PyStr.replace_backslash name)).
    rewrite !_save_carried, H1, H2, replace_backslash_idem.
    split; [reflexivity|]. split; [reflexivity|]. split.
    + destruct (PyStr.replace_backslash name) as [|c r]; [reflexivity|].
      simpl. intros Hh. unfold PyStr.slash.
      destruct (Ascii.eqb c "/"%char) eqn:E; [|reflexivity].
      apply Ascii.eqb_eq in E. subst c. now destruct Hh.
    + split; [apply string_app_inv_tail | intros ->; reflexivity].
Qed.

Lemma get_available_name_ignores_store_witness :
  exists r tail,
    BlobstoreStorage.get_available_name "d\a\b.txt" Sample.ds
      = (Ok r, Sample.ds)
    /\ r = "d/a/b.txt"
    /\ BlobstoreStorage._save r
         (BlobstoreUploadedFile.as_file_like Sample.uploaded) Sample.ds
       = (Ok ("abc" ++ "/" ++ tail), Sample.ds)
    /\ BlobstoreStorage._save r
         (mkFileLike None
            (Some (VBlobInfo (blobstore.BlobInfo_of_key (blobstore.mkBlobKey "xyz"))))
            (ret None)) Sample.ds
       = (Ok ("xyz" ++ "/" ++ tail), Sample.ds)
    /\ tail = "d/a/b.txt".
Proof.
  destruct (get_available_name_ignores_store "d\a\b.txt" Sample.ds Sample.ds)
    as (r & Hr & _ & _ & _ & _ & H).
  assert (Er : r = "d/a/b.txt").
  { unfold BlobstoreStorage.get_available_name, ret in Hr. simpl in Hr.
    now injection Hr as <-. }
  destruct (H Sample.info
              (blobstore.BlobInfo_of_key (blobstore.mkBlobKey "xyz"))
              (BlobstoreUploadedFile.as_file_like Sample.uploaded)
              (mkFileLike None
                 (Some (VBlobInfo (blobstore.BlobInfo_of_key (blobstore.mkBlobKey "xyz"))))
                 (ret None)) eq_refl eq_refl)
    as (tail & H1 & H2 & Ht & _).
  exists r, tail. split; [exact Hr|]. split; [exact Er|].
  split; [exact H1|]. split; [exact H2|].
  rewrite Ht; [exact Er|]. rewrite Er. discriminate.
Defined.

(** C5: a content that carries no blob reference, neither on its [file]
    attribute nor on itself, is rejected by [_save] with [ValueError], and
    the datastore is left as it was. *)
Theorem save_rejects_unreferenced (name : string) (content : file_like)
    (ds : gmap string blobstore.Blob) :
  (forall v, inner_info content = Some v -> is_reference v = false) ->
  (forall v, fl_blobstore_info content = Some v -> is_reference v = false) ->
  BlobstoreStorage._save name content ds = (Raise ValueError, ds).
Proof.
  intros Hin Hout. rewrite _save_carried. unfold carried.
  destruct (inner_info content) as [v|] eqn:E.
  - specialize (Hin v eq_refl). destruct v; try discriminate; reflexivity.
  - destruct (fl_blobstore_info content) as [v|] eqn:E'; [|reflexivity].
    specialize (Hout v eq_refl). destruct v; try discriminate; reflexivity.
Qed.

Lemma save_rejects_unreferenced_witness :
  BlobstoreStorage._save "a.txt" Sample.plain Sample.ds
    = (Raise ValueError, Sample.ds).
Proof.
  apply (save_rejects_unreferenced "a.txt" Sample.plain Sample.ds).
  - intros v H. simpl in H. discriminate.
  - intros v H. simpl in H. discriminate.
Defined.

(** C3, counterexample: the path part of a canonical name is the given name
    with backslashes turned into slashes and leading slashes dropped, not
    the name as given: saving under "/a.txt" yields "abc/a.txt". *)
Lemma save_canonical_name_not_verbatim :
  fst (BlobstoreStorage._save "/a.txt"
         (BlobstoreUploadedFile.as_file_like Sample.uploaded) Sample.ds)
    = Ok "abc/a.txt"
  /\ fst (BlobstoreStorage._save "/a.txt"
            (BlobstoreUploadedFile.as_file_like Sample.uploaded) Sample.ds)
     <> Ok ("abc" ++ "/" ++ "/a.txt").
Proof. split; [reflexivity | discriminate]. Qed.

(** C3 (amended): for a content carrying a [BlobInfo] of a committed blob
    with key [k] ([k] without '/'), [_save] under the name [p] returns
    [k ++ "/" ++ p'], where [p'] is [p] with backslashes turned into slashes
    and leading slashes dropped ([p] itself when it has neither); the key
    parsed from that name is [k], and [_open] on it yields a handle whose
    [blobstore_info] has the same key, size and content type as the saved
    reference. *)
Theorem save_then_open_same_reference (ds : gmap string blobstore.Blob)
    (k p mode : string) (b : blobstore.Blob) (bi : blobstore.BlobInfo)
    (content : file_like) :
  PyStr.has_slash k = false ->
  ds !! k = Some b ->
  blobstore.key_str (blobstore.key bi) = k ->
  blobstore.bi_entity bi = None \/ blobstore.bi_entity bi = Some b ->
  carried content = Some (VBlobInfo bi) ->
  let canonical := k ++ "/" ++ PyStr.lstrip_slash (PyStr.replace_backslash p) in
  BlobstoreStorage._save p content ds = (Ok canonical, ds)
  /\ (PyStr.replace_backslash p = p -> PyStr.lstrip_slash p = p ->
      canonical = k ++ "/" ++ p)
  /\ BlobstoreStorage._get_key canonical = blobstore.key bi
  /\ exists f bi',
       BlobstoreStorage._open canonical mode ds = (Ok f, ds)
       /\ BlobstoreFile.blobstore_info f = Some bi'
       /\ blobstore.key bi' = blobstore.key bi
       /\ blobstore.size bi' ds = (Ok (blobstore.blob_size b), ds)
       /\ blobstore.size bi ds = (Ok (blobstore.blob_size b), ds)
       /\ blobstore.content_type bi' ds = (Ok (blobstore.blob_content_type b), ds)
       /\ blobstore.content_type bi ds = (Ok (blobstore.blob_content_type b), ds).
Proof.
  intros Hk Hds Hkey Hent Hc canonical.
  assert (Hparse : PyStr.split_first canonical = k).
  { unfold canonical. apply (split_first_app k _ Hk). }
  assert (Hget : BlobstoreStorage._get_key canonical = blobstore.key bi).
  { unfold BlobstoreStorage._get_key. rewrite Hparse.
    destruct bi as [[s] e]. simpl in Hkey. now subst s. }
  assert (Hval : blobstore.get_value bi ds = (Ok b, ds)).
  { unfold blobstore.get_value. destruct Hent as [-> | ->]; [|reflexivity].
    unfold blobstore.key in Hkey. now rewrite Hkey, Hds. }
  split; [|split; [|split]].
  - rewrite _save_carried, Hc, Hkey. reflexivity.
  - intros Hr Hl. unfold canonical. now rewrite Hr, Hl.
  - exact Hget.
  - exists (BlobstoreFile.mk canonical mode
              (Some (blobstore.mkBlobInfo (BlobstoreStorage._get_key canonical) (Some b)))
              None),
           (blobstore.mkBlobInfo (BlobstoreStorage._get_key canonical) (Some b)).
    repeat split.
    + unfold BlobstoreStorage._open, BlobstoreFile.__init__, bind.
      rewrite get_blobinfo_lookup, Hparse, Hds. reflexivity.
    + exact Hget.
    + unfold blobstore.size, bind. now rewrite Hval.
    + unfold blobstore.content_type, bind. now rewrite Hval.
Qed.

Lemma save_then_open_same_reference_witness :
  BlobstoreStorage._save "/d\a.txt"
      (BlobstoreUploadedFile.as_file_like Sample.uploaded) Sample.ds
    = (Ok "abc/d/a.txt", Sample.ds)
  /\ BlobstoreStorage._get_key "abc/d/a.txt" = blobstore.mkBlobKey "abc".
Proof.
  destruct (save_then_open_same_reference Sample.ds "abc" "/d\a.txt" "rb"
              Sample.blob Sample.info
              (BlobstoreUploadedFile.as_file_like Sample.uploaded)
              eq_refl eq_refl eq_refl (or_introl eq_refl) eq_refl)
    as (Hsave & _ & Hkey & _).
  split; [exact Hsave | exact Hkey].
Defined.

(** C6, counterexample: [_open] on a name that resolves to nothing does not
    fail: it returns a handle, whose [blobstore_info] is [None]. *)
Lemma open_missing_returns_handle :
  BlobstoreStorage._open "nokey/a.txt" "rb" ∅
    = (Ok (BlobstoreFile.mk "nokey/a.txt" "rb" None None), ∅)
  /\ is_Ok (fst (BlobstoreStorage._open "nokey/a.txt" "rb" ∅)) = true.
Proof. split; reflexivity. Qed.

(** C6 (amended): for a name whose key part (what precedes the first '/')
    is not empty and names no committed blob, [exists] returns [False]
    without raising and [size] raises; [_open] does not raise but returns a
    handle without a blob reference, and the error shows when the handle's
    [size] or [file] is read. *)
Theorem missing_name_behaviour (ds : gmap string blobstore.Blob)
    (n mode : string) :
  PyStr.split_first n <> "" ->
  ds !! PyStr.split_first n = None ->
  BlobstoreStorage.exists_ n ds = (Ok false, ds)
  /\ BlobstoreStorage.size n ds = (Raise AttributeError, ds)
  /\ exists f,
       BlobstoreStorage._open n mode ds = (Ok f, ds)
       /\ BlobstoreFile.blobstore_info f = None
       /\ BlobstoreFile.size f ds = (Raise AttributeError, ds)
       /\ BlobstoreFile.file f = Raise AttributeError.
Proof.
  intros _ Hnone. repeat split.
  - unfold BlobstoreStorage.exists_, bind. now rewrite get_blobinfo_lookup, Hnone.
  - unfold BlobstoreStorage.size, bind. now rewrite get_blobinfo_lookup, Hnone.
  - exists (BlobstoreFile.mk n mode None None). repeat split.
    unfold BlobstoreStorage._open, BlobstoreFile.__init__, bind.
    now rewrite get_blobinfo_lookup, Hnone.
Qed.

Lemma missing_name_behaviour_witness :
  BlobstoreStorage.exists_ "nokey/a.txt" Sample.ds = (Ok false, Sample.ds)
  /\ BlobstoreStorage.size "nokey/a.txt" Sample.ds
     = (Raise AttributeError, Sample.ds).
Proof.
  destruct (missing_name_behaviour Sample.ds "nokey/a.txt" "rb")
    as (He & Hs & _).
  - vm_compute. discriminate.
  - vm_compute. reflexivity.
  - split; [exact He | exact Hs].
Defined.

(** ** The upload handler *)

Section UploadHandlerFacts.

Import BlobstoreFileUploadHandler.

Lemma receive_data_chunk_active raw start (h : t) :
  active h = Some true -> receive_data_chunk raw start h = (Ok None, h).
Proof. intros H. unfold receive_data_chunk. now rewrite H. Qed.

Lemma receive_data_chunk_inactive raw start (h : t) :
  active h = Some false -> receive_data_chunk raw start h = (Ok (Some raw), h).
Proof. intros H. unfold receive_data_chunk. now rewrite H. Qed.

Lemma feed_active chunks (h : t) :
  active h = Some true -> feed chunks h = (Ok (map (fun _ => None) chunks), h).
Proof.
  intros H. induction chunks as [|[raw start] rest IH]; [reflexivity|].
  simpl. unfold bind at 1. rewrite (receive_data_chunk_active _ _ _ H).
  unfold bind. now rewrite IH.
Qed.

Lemma feed_inactive chunks (h : t) :
  active h = Some false ->
  feed chunks h = (Ok (map (fun c => Some (fst c)) chunks), h).
Proof.
  intros H. induction chunks as [|[raw start] rest IH]; [reflexivity|].
  simpl. unfold bind at 1. rewrite (receive_data_chunk_inactive _ _ _ H).
  unfold bind. now rewrite IH.
Qed.

End UploadHandlerFacts.

(** C1: when the part's extra parameters hold a blob key, [new_file] sets
    [active], records the key and raises [StopFutureHandlers], the handler
    is then in state SHORT_CIRCUITED and every [receive_data_chunk] returns
    nothing, whatever the chunks; when they hold none, [new_file] returns
    normally, the handler is in state PASSTHROUGH, every
    [receive_data_chunk] returns its [raw_data] and [file_complete] returns
    nothing. *)
Theorem interceptor_transitions (args : BlobstoreFileUploadHandler.part_meta)
    (h : BlobstoreFileUploadHandler.t) :
  (forall k,
     BlobstoreFileUploadHandler.pm_content_type_extra args !! "blob-key" = Some k ->
     exists h',
       BlobstoreFileUploadHandler.new_file args h = (Raise StopFutureHandlers, h')
       /\ BlobstoreFileUploadHandler.state_of h'
          = BlobstoreFileUploadHandler.SHORT_CIRCUITED
       /\ BlobstoreFileUploadHandler.active h' = Some true
       /\ BlobstoreFileUploadHandler.blobkey h' = Some (blobstore.mkBlobKey k)
       /\ (forall raw start,
             BlobstoreFileUploadHandler.receive_data_chunk raw start h'
             = (Ok None, h'))
       /\ (forall chunks,
             BlobstoreFileUploadHandler.feed chunks h'
             = (Ok (map (fun _ => None) chunks), h')))
  /\ (BlobstoreFileUploadHandler.pm_content_type_extra args !! "blob-key" = None ->
      exists h',
        BlobstoreFileUploadHandler.new_file args h = (Ok tt, h')
        /\ BlobstoreFileUploadHandler.state_of h'
           = BlobstoreFileUploadHandler.PASSTHROUGH
        /\ (forall raw start,
              BlobstoreFileUploadHandler.receive_data_chunk raw start h'
              = (Ok (Some raw), h'))
        /\ (forall chunks,
              BlobstoreFileUploadHandler.feed chunks h'
              = (Ok (map (fun c => Some (fst c)) chunks), h'))
        /\ (forall file_size (ds : gmap string blobstore.Blob),
              BlobstoreFileUploadHandler.file_complete file_size h' ds
              = (Ok None, ds))).
Proof.
  split.
  - intros k Hk. eexists. unfold BlobstoreFileUploadHandler.new_file.
    rewrite Hk. simpl. repeat split.
    + intros chunks. now apply feed_active.
  - intros Hk. eexists. unfold BlobstoreFileUploadHandler.new_file.
    rewrite Hk. simpl. repeat split.
    + intros chunks. now apply feed_inactive.
Qed.

Lemma interceptor_transitions_witness :
  (exists h',
     BlobstoreFileUploadHandler.new_file (Sample.part {[ "blob-key" := "abc" ]})
       BlobstoreFileUploadHandler.initial = (Raise StopFutureHandlers, h')
     /\ BlobstoreFileUploadHandler.feed [(Sample.hello, 0); (Sample.hello, 5)] h'
        = (Ok [None; None], h'))
  /\ (exists h',
        BlobstoreFileUploadHandler.new_file (Sample.part ∅)
          BlobstoreFileUploadHandler.initial = (Ok tt, h')
        /\ BlobstoreFileUploadHandler.feed [(Sample.hello, 0); (Sample.hello, 5)] h'
           = (Ok [Some Sample.hello; Some Sample.hello], h')).
Proof.
  split.
  - destruct (interceptor_transitions (Sample.part {[ "blob-key" := "abc" ]})
                BlobstoreFileUploadHandler.initial) as [H _].
    destruct (H "abc" eq_refl) as (h' & Hn & _ & _ & _ & _ & Hf).
    exists h'. split; [exact Hn | apply Hf].
  - destruct (interceptor_transitions (Sample.part ∅)
                BlobstoreFileUploadHandler.initial) as [_ H].
    destruct (H eq_refl) as (h' & Hn & _ & _ & Hf & _).
    exists h'. split; [exact Hn | apply Hf].
Defined.




(** ** The uploaded-file adapter *)

Section ChunksFacts.

Import BlobstoreUploadedFile.

Implicit Types (ds : gmap string blobstore.Blob) (u : t).

Lemma take_drop_taken {A} (n : nat) (l : list A) :
  (take n l ++ drop (length (take n l)) l)%list = l.
Proof.
  rewrite length_take. destruct (Nat.le_gt_cases n (length l)) as [H|H].
  - rewrite Nat.min_l by exact H. apply take_drop.
  - rewrite Nat.min_r by lia. rewrite take_ge by lia.
    rewrite drop_all. apply app_nil_r.
Qed.

Lemma read_spec c u ds b :
  ds !! blobstore.key_str (blobstore.reader_key (file u)) = Some b ->
  read c u ds =
    (Ok (read_out c (drop (blobstore.reader_pos (file u)) (blobstore.blob_data b)),
         with_file u
           (blobstore.mkBlobReader (blobstore.reader_key (file u))
              (blobstore.reader_pos (file u)
               + length (read_out c (drop (blobstore.reader_pos (file u))
                                          (blobstore.blob_data b)))))),
     ds).
Proof.
  intros H. unfold read, blobstore.read, bind, ret, read_out. now rewrite H.
Qed.

Lemma read_out_nil c : read_out c [] = [].
Proof. unfold read_out. destruct (c <? 0); [reflexivity | apply take_nil]. Qed.

Lemma read_out_pos c rest :
  0 < c -> read_out c rest = take (Z.to_nat c) rest.
Proof. intros H. unfold read_out. destruct (Z.ltb_spec c 0); [lia | reflexivity]. Qed.

Lemma chunks_loop_spec fuel : forall c u ds b,
  ds !! blobstore.key_str (blobstore.reader_key (file u)) = Some b ->
  0 < c \/ blobstore.blob_data b = [] ->
  (blobstore.reader_pos (file u) <= length (blobstore.blob_data b))%nat ->
  (length (blobstore.blob_data b) - blobstore.reader_pos (file u) < fuel)%nat ->
  exists cs,
    chunks_loop fuel c u ds =
      (Ok (Some cs,
           with_file u (blobstore.mkBlobReader
                          (blobstore.reader_key (file u))
                          (length (blobstore.blob_data b)))), ds)
    /\ List.concat cs
       = drop (blobstore.reader_pos (file u)) (blobstore.blob_data b)
    /\ Forall (fun ch => ch <> [] /\ Z.of_nat (length ch) <= c) cs.
Proof.
  induction fuel as [|fuel IH]; intros c u ds b Hds Hc Hpos Hfuel; [lia|].
  simpl. unfold bind at 1. rewrite (read_spec c u ds b Hds). simpl.
  set (pos := blobstore.reader_pos (file u)) in *.
  set (data := blobstore.blob_data b) in *.
  destruct (drop pos data) as [|x rest] eqn:Hrest.
  - rewrite read_out_nil. simpl. exists []. repeat split; [|constructor].
    assert (Heq : (pos + 0 = length data)%nat).
    { apply (f_equal length) in Hrest. rewrite length_drop in Hrest.
      simpl in Hrest. lia. }
    unfold ret. now rewrite Heq.
  - assert (Hcpos : 0 < c).
    { destruct Hc as [Hc|Hc]; [exact Hc|].
      rewrite Hc, drop_nil in Hrest. discriminate. }
    rewrite read_out_pos by exact Hcpos.
    assert (Hn : (1 <= Z.to_nat c)%nat) by lia.
    destruct (Z.to_nat c) as [|n] eqn:Hcn; [lia|].
    assert (Hlen : (S (length rest) = length data - pos)%nat).
    { apply (f_equal length) in Hrest. rewrite length_drop in Hrest.
      simpl in Hrest. lia. }
    simpl.
    set (u1 := with_file u
                 (blobstore.mkBlobReader (blobstore.reader_key (file u))
                    (pos + S (length (take n rest))))).
    assert (Htk : (length (take n rest) <= length rest)%nat).
    { rewrite length_take. lia. }
    destruct (IH c u1 ds b) as (cs & Hloop & Hcat & Hall).
    + exact Hds.
    + left. exact Hcpos.
    + simpl. fold data. lia.
    + simpl. fold data. lia.
    + unfold bind. rewrite Hloop. simpl.
      exists ((x :: take n rest) :: cs). repeat split.
      * simpl. rewrite Hcat. simpl. fold data. f_equal.
        replace (pos + S (length (take n rest)))%nat
          with (pos + 1 + length (take n rest))%nat by lia.
        rewrite <- !drop_drop. fold data. rewrite Hrest. simpl.
        rewrite drop_0. apply take_drop_taken.
      * constructor; [|exact Hall]. split; [discriminate|].
        simpl. rewrite length_take. lia.
Qed.

End ChunksFacts.

(** C2: for an uploaded file over a committed blob with bytes [B] and a
    chunk size [c] that is positive (or equal to the blob's size), [chunks]
    seeks the reader to 0 whatever its cursor was, ends once the fuel exceeds
    the length of [B], yields non-empty chunks of at most [c] bytes whose
    concatenation is [B], and leaves the cursor at the end, where the read
    is empty; a second call yields the same chunks again. *)
Theorem chunks_reproduce_content (ds : gmap string blobstore.Blob)
    (u : BlobstoreUploadedFile.t) (b : blobstore.Blob) (c : Z) (fuel : nat) :
  ds !! blobstore.key_str (blobstore.reader_key (BlobstoreUploadedFile.file u))
    = Some b ->
  0 < c \/ c = blobstore.blob_size b ->
  (length (blobstore.blob_data b) < fuel)%nat ->
  exists cs u',
    BlobstoreUploadedFile.chunks fuel c u ds = (Ok (Some cs, u'), ds)
    /\ List.concat cs = blobstore.blob_data b
    /\ Forall (fun ch => ch <> [] /\ Z.of_nat (length ch) <= c) cs
    /\ blobstore.reader_pos (BlobstoreUploadedFile.file u')
       = length (blobstore.blob_data b)
    /\ BlobstoreUploadedFile.read c u' ds = (Ok ([], u'), ds)
    /\ (forall pos,
          BlobstoreUploadedFile.chunks fuel c
            (BlobstoreUploadedFile.with_file u
               (blobstore.mkBlobReader
                  (blobstore.reader_key (BlobstoreUploadedFile.file u)) pos)) ds
          = (Ok (Some cs, u'), ds))
    /\ BlobstoreUploadedFile.chunks fuel c u' ds = (Ok (Some cs, u'), ds).
Proof.
  intros Hds Hc Hfuel.
  assert (Hc' : 0 < c \/ blobstore.blob_data b = []).
  { destruct Hc as [Hc|Hc]; [now left|].
    destruct (Z.ltb_spec 0 c); [now left|]. right.
    unfold blobstore.blob_size in Hc.
    destruct (blobstore.blob_data b); [reflexivity | simpl in Hc; lia]. }
  destruct (chunks_loop_spec fuel c
              (BlobstoreUploadedFile.with_file u
                 (blobstore.seek 0 (BlobstoreUploadedFile.file u))) ds b)
    as (cs & Hloop & Hcat & Hall); simpl; try assumption; try lia.
  simpl in Hloop, Hcat. rewrite drop_0 in Hcat.
  eexists cs, _. split; [exact Hloop|].
  repeat split; try assumption.
  - rewrite (read_spec c _ ds b) by exact Hds. simpl.
    rewrite drop_all, read_out_nil. simpl. now rewrite Nat.add_0_r.
  - intros pos. exact Hloop.
Qed.

Lemma chunks_reproduce_content_witness :
  exists cs u',
    BlobstoreUploadedFile.chunks 6 2 Sample.uploaded Sample.ds
    = (Ok (Some cs, u'), Sample.ds)
    /\ List.concat cs = Sample.hello.
Proof.
  destruct (chunks_reproduce_content Sample.ds Sample.uploaded Sample.blob 2 6)
    as (cs & u' & Hrun & Hcat & _).
  - vm_compute. reflexivity.
  - left. lia.
  - simpl. lia.
  - exists cs, u'. split; [exact Hrun | exact Hcat].
Defined.

(** The run of the witness, chunk by chunk. *)
Example chunks_hello_by_two :
  exists u',
    BlobstoreUploadedFile.chunks 6 2 Sample.uploaded Sample.ds
    = (Ok (Some [[x68; x65]; [x6c; x6c]; [x6f]]%byte, u'), Sample.ds).
Proof. eexists. vm_compute. reflexivity. Qed.

(** ** Serving a stored blob *)

(** C4: [serve_file] raises [ValueError] when neither the file's [file]
    attribute nor the file has a [blobstore_info].  When the attribute it
    finds is not a [BlobInfo] ([None], as on a handle opened for a missing
    blob, or a bare [BlobKey]) it does not raise that error but the
    [AttributeError] of the call of [key()] on the value, where [_save]
    checks the value and raises [ValueError].  For a file backed by a
    [BlobInfo] it returns a response with the content type asked for (the
    default one for [None]), the blob-key header set to the blob's key,
    'Accept-Ranges: bytes', the blob-range header equal to the request's
    'Range' header exactly when the request has one,
    'Content-Disposition: attachment; filename=<save_as>' exactly when
    [save_as] is a non-empty name, and 'Content-Length' equal to the size
    exactly when the size is not [None]. *)
Theorem serve_file_response (request : HttpRequest) (file : file_like)
    (save_as content_type : option string) (ds : gmap string blobstore.Blob) :
  (carried file = None ->
   serve_file request file save_as content_type ds = (Raise ValueError, ds))
  /\ (forall v, carried file = Some v -> (forall bi, v <> VBlobInfo bi) ->
      serve_file request file save_as content_type ds = (Raise AttributeError, ds))
  /\ (forall bi sz,
        carried file = Some (VBlobInfo bi) ->
        fl_size file ds = (Ok sz, ds) ->
        exists resp,
          serve_file request file save_as content_type ds = (Ok resp, ds)
          /\ (content_type = None ->
              resp_headers resp !! "Content-Type"
              = Some (HStr "text/html; charset=utf-8"))
          /\ (forall ct, content_type = Some ct -> ct <> "" ->
              resp_headers resp !! "Content-Type" = Some (HStr ct))
          /\ resp_headers resp !! blobstore.BLOB_KEY_HEADER
             = Some (HStr (blobstore.key_str (blobstore.key bi)))
          /\ resp_headers resp !! "Accept-Ranges" = Some (HStr "bytes")
          /\ resp_headers resp !! blobstore.BLOB_RANGE_HEADER
             = HStr <$> META request !! "HTTP_RANGE"
          /\ resp_headers resp !! "Content-Disposition"
             = match save_as with
               | Some s => if PyStr.nonempty s
                           then Some (HStr ("attachment; filename=" ++ s))
                           else None
               | None => None
               end
          /\ resp_headers resp !! "Content-Length" = HInt <$> sz).
Proof.
  split; [|split].
  - unfold carried, serve_file, bind, lift. intros H.
    destruct (inner_info file); [discriminate|]. now rewrite H.
  - unfold carried, serve_file, bind, lift. intros v H Hv.
    destruct (inner_info file) as [w|].
    + injection H as ->. destruct v; try reflexivity. now destruct (Hv bi).
    + rewrite H. destruct v; try reflexivity. now destruct (Hv bi).
  - intros bi sz Hc Hsz.
    assert (Hkey : match inner_info file with
                   | Some v => call_key v
                   | None => match fl_blobstore_info file with
                             | Some v => call_key v
                             | None => Raise ValueError
                             end
                   end = Ok (blobstore.key bi)).
    { unfold carried in Hc. destruct (inner_info file) as [w|].
      - injection Hc as ->. reflexivity.
      - rewrite Hc. reflexivity. }
    unfold serve_file, bind, lift. rewrite Hkey. rewrite Hsz.
    unfold blobstore.BLOB_KEY_HEADER, blobstore.BLOB_RANGE_HEADER.
    destruct (META request !! "HTTP_RANGE") as [r|];
      destruct save_as as [[|c s]|]; destruct sz as [n|];
      destruct content_type as [ct0|];
      simpl; rewrite ?Hsz; simpl;
      (eexists; split; [reflexivity|]);
      unfold set_header, HttpResponse_new, DEFAULT_CONTENT_TYPE; simpl;
      repeat split; try (intros; simplify_eq); by simplify_map_eq.
Qed.

Lemma serve_file_response_witness :
  (exists resp,
     serve_file Sample.request (BlobstoreUploadedFile.as_file_like Sample.uploaded)
       (Some "a.txt") (Some "text/plain") Sample.ds = (Ok resp, Sample.ds)
     /\ resp_headers resp !! "Content-Type" = Some (HStr "text/plain")
     /\ resp_headers resp !! "X-AppEngine-BlobRange" = Some (HStr "bytes=10-20")
     /\ resp_headers resp !! "Content-Disposition"
        = Some (HStr "attachment; filename=a.txt")
     /\ resp_headers resp !! "Content-Length" = Some (HInt 5))
  /\ serve_file Sample.request Sample.plain None None Sample.ds
     = (Raise ValueError, Sample.ds)
  /\ serve_file Sample.request
       (BlobstoreFile.as_file_like
          (BlobstoreFile.mk "gone/a.txt" "rb" None None)) None None Sample.ds
     = (Raise AttributeError, Sample.ds).
Proof.
  split; [|split].
  - destruct (serve_file_response Sample.request
                (BlobstoreUploadedFile.as_file_like Sample.uploaded)
                (Some "a.txt") (Some "text/plain") Sample.ds) as (_ & _ & H).
    destruct (H Sample.info (Some 5) eq_refl eq_refl)
      as (resp & Hrun & _ & Hct & _ & _ & Hrange & Hdisp & Hlen).
    exists resp. repeat split; try assumption.
    apply Hct; [reflexivity | discriminate].
  - destruct (serve_file_response Sample.request Sample.plain None None Sample.ds)
      as (H & _). apply H. reflexivity.
  - destruct (serve_file_response Sample.request
                (BlobstoreFile.as_file_like
                   (BlobstoreFile.mk "gone/a.txt" "rb" None None))
                None None Sample.ds) as (_ & H & _).
    apply (H VNone); [reflexivity | discriminate].
Defined.

(** ** The Cloud Storage back end *)

Section CloudStorageFacts.

Implicit Types (self : CloudStorage.t) (fs : files.FileSystem).

(** [save] of a content with no bytes left: the object is there, empty
    and finalized. *)
Lemma save_empty self name fs buf :
  CloudStorage.save self name (mkStringIO buf (length buf)) fs
  = (Ok name,
     files.mkFS (<[CloudStorage.location self ++ name := []]> (files.objects fs))
                (base.delete (CloudStorage.location self ++ name)
                   (<[CloudStorage.location self ++ name := []]>
                      (<[CloudStorage.location self ++ name := []]>
                         (files.writable fs))))).
Proof.
  unfold CloudStorage.save, bind, files.gs_create, files.open, files.write,
    files.finalize, StringIO_read_all, ret. simpl.
  rewrite drop_all. simpl. rewrite lookup_insert_eq. simpl.
  rewrite lookup_insert_eq. simpl. rewrite lookup_insert_eq. reflexivity.
Qed.

Lemma open_read_present self name fs data :
  files.objects fs !! (CloudStorage.location self ++ name) = Some data ->
  files.open (CloudStorage.location self ++ name) files.ModeR fs
  = (Ok (files.mkHandle (CloudStorage.location self ++ name) files.ModeR 0), fs).
Proof. intros H. unfold files.open. now rewrite H. Qed.

End CloudStorageFacts.

(** C9: after [save] of a content without bytes under "empty.txt", which
    returns the name, the object is stored empty, [size] returns 0 and
    [exists] returns [True]; the bytes [_open] collects are empty, but
    [_open] hands them to [ContentFile] wrapped in a [StringIO], and the
    constructor raises instead of returning a handle. *)
Theorem cloud_storage_empty_object (self : CloudStorage.t)
    (fs : files.FileSystem) (fuel : nat) :
  exists fs',
    CloudStorage.save self "empty.txt" (StringIO_new []) fs = (Ok "empty.txt", fs')
    /\ files.objects fs' !! (CloudStorage.location self ++ "empty.txt") = Some []
    /\ CloudStorage.size fuel self "empty.txt" fs' = (Ok (Some 0), fs')
    /\ CloudStorage.exists_ self "empty.txt" fs' = (Ok true, fs')
    /\ CloudStorage._open_data fuel self "empty.txt" fs' = (Ok (Some []), fs')
    /\ CloudStorage._open fuel self "empty.txt" fs' = (Raise TypeError, fs').
Proof.
  eexists. split; [apply (save_empty self "empty.txt" fs [])|].
  remember (files.mkFS _ _) as fs' eqn:Hfs'.
  assert (Hobj : files.objects fs' !! (CloudStorage.location self ++ "empty.txt")
                 = Some []).
  { rewrite Hfs'. simpl. apply lookup_insert_eq. }
  clear Hfs'.
  assert (Hdata : CloudStorage._open_data fuel self "empty.txt" fs'
                  = (Ok (Some []), fs')).
  { unfold CloudStorage._open_data, bind.
    rewrite (open_read_present _ _ _ _ Hobj).
    unfold files.read. simpl. rewrite Hobj. simpl.
    destruct fuel; reflexivity. }
  repeat split.
  - exact Hobj.
  - unfold CloudStorage.size, bind.
    rewrite (open_read_present _ _ _ _ Hobj).
    unfold files.read. simpl. rewrite Hobj. simpl.
    destruct fuel; reflexivity.
  - unfold CloudStorage.exists_. now rewrite (open_read_present _ _ _ _ Hobj).
  - exact Hdata.
  - unfold CloudStorage._open, bind. rewrite Hdata. reflexivity.
Qed.

(** * Further properties *)

(** ** Names and keys *)

Section NameFacts.

Import PyStr.

Lemma split_first_no_slash s : has_slash (split_first s) = false.
Proof.
  induction s as [|c r IH]; simpl; [reflexivity|].
  destruct (Ascii.eqb c slash) eqn:E; simpl; [reflexivity|].
  now rewrite E, IH.
Qed.

Lemma split_first_fixed s : has_slash s = false -> split_first s = s.
Proof.
  induction s as [|c r IH]; simpl; [reflexivity|].
  destruct (Ascii.eqb c slash); simpl; [discriminate|].
  intros H. now rewrite IH.
Qed.

Lemma replace_backslash_fixed s :
  replace_backslash s = s <-> (forall i, String.get i s <> Some backslash).
Proof.
  induction s as [|c r IH]; simpl.
  - split; [intros _ i; discriminate | reflexivity].
  - split.
    + intros H. injection H as Hc Hr. intros [|i]; simpl.
      * intros E. injection E as ->. discriminate Hc.
      * now apply IH.
    + intros H. f_equal.
      * unfold repl_char. destruct (Ascii.eqb c backslash) eqn:E; [|reflexivity].
        apply Ascii.eqb_eq in E. subst c. now destruct (H 0%nat).
      * apply IH. intros i. apply (H (S i)).
Qed.

Lemma replace_backslash_clean s i :
  String.get i (replace_backslash s) <> Some backslash.
Proof.
  rewrite replace_backslash_get. destruct (String.get i s) as [c|]; simpl;
    [|discriminate].
  unfold repl_char. destruct (Ascii.eqb c backslash) eqn:E.
  - discriminate.
  - intros H. injection H as ->. discriminate E.
Qed.

Lemma lstrip_slash_idem s : lstrip_slash (lstrip_slash s) = lstrip_slash s.
Proof.
  induction s as [|c r IH]; simpl; [reflexivity|].
  destruct (Ascii.eqb c slash) eqn:E; [exact IH|]. simpl. now rewrite E.
Qed.

Lemma lstrip_slash_head s : String.get 0 (lstrip_slash s) <> Some slash.
Proof.
  induction s as [|c r IH]; simpl; [discriminate|].
  destruct (Ascii.eqb c slash) eqn:E; [exact IH|]. simpl.
  intros H. injection H as ->. discriminate E.
Qed.

Lemma lstrip_slash_clean s :
  (forall i, String.get i s <> Some backslash) ->
  forall i, String.get i (lstrip_slash s) <> Some backslash.
Proof.
  induction s as [|c r IH]; simpl; intros H i; [discriminate|].
  destruct (Ascii.eqb c slash).
  - apply IH. intros j. apply (H (S j)).
  - apply (H i).
Qed.

Lemma rstrip_fixed_lstrip s : rstrip s = s -> rstrip (lstrip s) = lstrip s.
Proof.
  induction s as [|c r IH]; simpl; [reflexivity|].
  intros H. destruct (is_space c) eqn:Ec.
  - apply IH. destruct (rstrip r) as [|c' r'] eqn:Er.
    + discriminate H.
    + now injection H.
  - simpl. rewrite Ec. exact H.
Qed.

End NameFacts.

Section StorageLookups.

Import PyStr.

Implicit Types (ds : gmap string blobstore.Blob).

Lemma exists_lookup n ds :
  BlobstoreStorage.exists_ n ds
  = (Ok (match ds !! split_first n with Some _ => true | None => false end), ds).
Proof.
  unfold BlobstoreStorage.exists_, bind. rewrite get_blobinfo_lookup.
  now destruct (ds !! split_first n).
Qed.

Lemma size_lookup n ds :
  BlobstoreStorage.size n ds
  = match ds !! split_first n with
    | Some b => (Ok (blobstore.blob_size b), ds)
    | None => (Raise AttributeError, ds)
    end.
Proof.
  unfold BlobstoreStorage.size, bind. rewrite get_blobinfo_lookup.
  now destruct (ds !! split_first n).
Qed.

Lemma _open_lookup n mode ds :
  BlobstoreStorage._open n mode ds
  = (Ok (BlobstoreFile.mk n mode
           (blobstore.mkBlobInfo (BlobstoreStorage._get_key n) ∘ Some
              <$> ds !! split_first n) None), ds).
Proof.
  unfold BlobstoreStorage._open, BlobstoreFile.__init__, bind.
  now rewrite get_blobinfo_lookup.
Qed.

Lemma delete_lookup n ds :
  BlobstoreStorage.delete n ds = (Ok tt, base.delete (split_first n) ds).
Proof. reflexivity. Qed.

End StorageLookups.

(** X1: [exists] and [size] look at the key part of the name only: [exists]
    is true exactly when the part before the first '/' is the key of a
    committed blob, [size] is then that blob's size, and two names with the
    same key part get the same answers, whatever follows the '/'. *)
Theorem exists_size_by_key_part (ds : gmap string blobstore.Blob)
    (n n' : string) :
  PyStr.split_first n' = PyStr.split_first n ->
  (BlobstoreStorage.exists_ n ds = (Ok true, ds)
   <-> is_Some (ds !! PyStr.split_first n))
  /\ (forall b, ds !! PyStr.split_first n = Some b ->
        BlobstoreStorage.size n ds = (Ok (blobstore.blob_size b), ds))
  /\ BlobstoreStorage.exists_ n' ds = BlobstoreStorage.exists_ n ds
  /\ BlobstoreStorage.size n' ds = BlobstoreStorage.size n ds.
Proof.
  intros Hk. rewrite !exists_lookup, !size_lookup, Hk. repeat split.
  - destruct (ds !! PyStr.split_first n); [eauto | discriminate].
  - intros [b Hb]. now rewrite Hb.
  - intros b Hb. now rewrite Hb.
Qed.

Lemma exists_size_by_key_part_witness :
  BlobstoreStorage.exists_ "abc/never-saved.bin" Sample.ds
  = BlobstoreStorage.exists_ "abc/a.txt" Sample.ds
  /\ BlobstoreStorage.size "abc/a.txt" Sample.ds = (Ok 5, Sample.ds).
Proof.
  destruct (exists_size_by_key_part Sample.ds "abc/a.txt" "abc/never-saved.bin"
              eq_refl) as (_ & Hs & He & _).
  split; [exact He | apply (Hs Sample.blob)]. vm_compute. reflexivity.
Defined.

(** X2: for a name [n] with a non-empty key part, [delete(n)] does not
    raise, also when there is nothing to delete, and afterwards every name
    with the key part of [n] is gone: [exists] returns [False], [size]
    raises and [_open] gives a handle without a reference; deleting again
    changes nothing. *)
Theorem delete_then_missing (ds : gmap string blobstore.Blob)
    (n n' mode : string) :
  PyStr.split_first n <> "" ->
  PyStr.split_first n' = PyStr.split_first n ->
  exists ds',
    BlobstoreStorage.delete n ds = (Ok tt, ds')
    /\ BlobstoreStorage.exists_ n' ds' = (Ok false, ds')
    /\ BlobstoreStorage.size n' ds' = (Raise AttributeError, ds')
    /\ BlobstoreStorage._open n' mode ds'
       = (Ok (BlobstoreFile.mk n' mode None None), ds')
    /\ BlobstoreStorage.delete n' ds' = (Ok tt, ds').
Proof.
  intros _ Hk. exists (base.delete (PyStr.split_first n) ds).
  rewrite exists_lookup, size_lookup, _open_lookup, !delete_lookup, Hk.
  rewrite lookup_delete_eq. repeat split.
  f_equal. apply delete_id. apply lookup_delete_eq.
Qed.

Lemma delete_then_missing_witness :
  exists ds',
    BlobstoreStorage.delete "abc/a.txt" Sample.ds = (Ok tt, ds')
    /\ BlobstoreStorage.exists_ "abc/b.txt" ds' = (Ok false, ds').
Proof.
  destruct (delete_then_missing Sample.ds "abc/a.txt" "abc/b.txt" "rb")
    as (ds' & Hd & He & _).
  - vm_compute. discriminate.
  - reflexivity.
  - exists ds'. split; [exact Hd | exact He].
Defined.

(** X3: [delete(n)] leaves every name with another key part as it was:
    [exists], [size] and [_open] answer as before. *)
Theorem delete_keeps_other_keys (ds : gmap string blobstore.Blob)
    (n m mode : string) :
  PyStr.split_first m <> PyStr.split_first n ->
  let ds' := snd (BlobstoreStorage.delete n ds) in
  fst (BlobstoreStorage.exists_ m ds') = fst (BlobstoreStorage.exists_ m ds)
  /\ fst (BlobstoreStorage.size m ds') = fst (BlobstoreStorage.size m ds)
  /\ fst (BlobstoreStorage._open m mode ds')
     = fst (BlobstoreStorage._open m mode ds).
Proof.
  intros Hk ds'. unfold ds'.
  rewrite !exists_lookup, !size_lookup, !_open_lookup, delete_lookup. simpl.
  rewrite lookup_delete_ne by congruence.
  repeat split. now destruct (ds !! PyStr.split_first m).
Qed.

Lemma delete_keeps_other_keys_witness :
  fst (BlobstoreStorage.size "abc/a.txt"
         (snd (BlobstoreStorage.delete "xyz/a.txt" Sample.ds)))
  = fst (BlobstoreStorage.size "abc/a.txt" Sample.ds).
Proof.
  destruct (delete_keeps_other_keys Sample.ds "xyz/a.txt" "abc/a.txt" "rb")
    as (_ & Hs & _).
  - vm_compute. discriminate.
  - exact Hs.
Defined.

(** X4: the key [_get_key] parses never contains a '/'; parsing the parsed
    key again gives the same key, and a name without '/' is its own key. *)
Theorem get_key_has_no_slash (n : string) :
  PyStr.has_slash (blobstore.key_str (BlobstoreStorage._get_key n)) = false
  /\ BlobstoreStorage._get_key (blobstore.key_str (BlobstoreStorage._get_key n))
     = BlobstoreStorage._get_key n
  /\ (PyStr.has_slash n = false ->
      blobstore.key_str (BlobstoreStorage._get_key n) = n).
Proof.
  unfold BlobstoreStorage._get_key. simpl. repeat split.
  - apply split_first_no_slash.
  - f_equal. apply split_first_fixed, split_first_no_slash.
  - apply split_first_fixed.
Qed.

Lemma get_key_has_no_slash_witness :
  blobstore.key_str (BlobstoreStorage._get_key "abc") = "abc".
Proof.
  destruct (get_key_has_no_slash "abc") as (_ & _ & H). apply H. reflexivity.
Defined.

(** ** Saving *)

(** X5: [_save] looks at [content.file.blobstore_info] first: when that
    attribute exists, it alone decides, so a value there that is no blob
    reference makes [_save] raise [ValueError] even if [content] itself
    carries a [BlobInfo], and two contents with the same inner attribute are
    saved alike. *)
Theorem save_inner_attribute_first (name : string) (content content' : file_like)
    (v : attr_value) (ds : gmap string blobstore.Blob) :
  inner_info content = Some v ->
  (is_reference v = false ->
   BlobstoreStorage._save name content ds = (Raise ValueError, ds))
  /\ (inner_info content' = Some v ->
      BlobstoreStorage._save name content' ds
      = BlobstoreStorage._save name content ds).
Proof.
  intros Hin. rewrite !_save_carried. unfold carried. rewrite Hin. split.
  - destruct v; try discriminate; reflexivity.
  - intros Hin'. now rewrite Hin'.
Qed.

Lemma save_inner_attribute_first_witness :
  BlobstoreStorage._save "a.txt"
    (mkFileLike (Some (mkInner (Some VNone))) (Some (VBlobInfo Sample.info))
       (ret None)) Sample.ds
  = (Raise ValueError, Sample.ds).
Proof.
  destruct (save_inner_attribute_first "a.txt"
              (mkFileLike (Some (mkInner (Some VNone)))
                 (Some (VBlobInfo Sample.info)) (ret None))
              Sample.plain VNone Sample.ds eq_refl) as [H _].
  apply H. reflexivity.
Defined.

(** X6: a bare [BlobKey] is accepted as well as a [BlobInfo]: the canonical
    name is built from the key either way. *)
Theorem save_accepts_blob_key (name : string) (c1 c2 : file_like)
    (k : blobstore.BlobKey) (bi : blobstore.BlobInfo)
    (ds : gmap string blobstore.Blob) :
  carried c1 = Some (VBlobKey k) ->
  carried c2 = Some (VBlobInfo bi) ->
  blobstore.key bi = k ->
  BlobstoreStorage._save name c1 ds
  = (Ok (blobstore.key_str k ++ "/"
         ++ PyStr.lstrip_slash (PyStr.replace_backslash name)), ds)
  /\ BlobstoreStorage._save name c1 ds = BlobstoreStorage._save name c2 ds.
Proof.
  intros H1 H2 Hk. rewrite !_save_carried, H1, H2, Hk. split; reflexivity.
Qed.

Lemma save_accepts_blob_key_witness :
  BlobstoreStorage._save "a.txt"
    (mkFileLike None (Some (VBlobKey (blobstore.mkBlobKey "abc"))) (ret None))
    Sample.ds
  = (Ok "abc/a.txt", Sample.ds).
Proof.
  destruct (save_accepts_blob_key "a.txt"
              (mkFileLike None (Some (VBlobKey (blobstore.mkBlobKey "abc")))
                 (ret None))
              (BlobstoreUploadedFile.as_file_like Sample.uploaded)
              (blobstore.mkBlobKey "abc") Sample.info Sample.ds
              eq_refl eq_refl eq_refl) as [H _].
  exact H.
Defined.

(** X7: [_save] does not tell names apart that differ by a leading '/', a
    leading backslash, or by backslashes written for slashes; when it
    succeeds the part after the key's '/' holds no backslash and does not
    begin with '/'. *)
Theorem save_name_normalised (name : string) (content : file_like)
    (ds : gmap string blobstore.Blob) :
  BlobstoreStorage._save (String PyStr.slash name) content ds
  = BlobstoreStorage._save name content ds
  /\ BlobstoreStorage._save (String PyStr.backslash name) content ds
     = BlobstoreStorage._save name content ds
  /\ BlobstoreStorage._save (PyStr.replace_backslash name) content ds
     = BlobstoreStorage._save name content ds
  /\ (forall canonical,
        BlobstoreStorage._save name content ds = (Ok canonical, ds) ->
        exists k tail,
          canonical = k ++ "/" ++ tail
          /\ (carried content = Some (VBlobKey (blobstore.mkBlobKey k))
              \/ exists bi, carried content = Some (VBlobInfo bi)
                            /\ blobstore.key_str (blobstore.key bi) = k)
          /\ (forall i, String.get i tail <> Some PyStr.backslash)
          /\ String.get 0 tail <> Some PyStr.slash).
Proof.
  rewrite !_save_carried, replace_backslash_idem. repeat split.
  intros canonical H.
  assert (Htail : (forall i, String.get i
                     (PyStr.lstrip_slash (PyStr.replace_backslash name))
                     <> Some PyStr.backslash)
                  /\ String.get 0
                       (PyStr.lstrip_slash (PyStr.replace_backslash name))
                     <> Some PyStr.slash).
  { split; [|apply lstrip_slash_head].
    apply lstrip_slash_clean, replace_backslash_clean. }
  destruct (carried content) as [[bi|[k]| |]|]; try discriminate.
  - injection H as <-.
    exists (blobstore.key_str (blobstore.key bi)),
           (PyStr.lstrip_slash (PyStr.replace_backslash name)).
    split; [reflexivity|]. split; [right; eauto | exact Htail].
  - injection H as <-.
    exists k, (PyStr.lstrip_slash (PyStr.replace_backslash name)).
    split; [reflexivity|]. split; [now left | exact Htail].
Qed.

Lemma save_name_normalised_witness :
  exists k tail,
    "abc/d/a.txt" = k ++ "/" ++ tail
    /\ String.get 0 tail <> Some PyStr.slash.
Proof.
  destruct (save_name_normalised "/d\a.txt"
              (BlobstoreUploadedFile.as_file_like Sample.uploaded) Sample.ds)
    as (_ & _ & _ & H).
  destruct (H "abc/d/a.txt" eq_refl) as (k & tail & Hc & _ & _ & Hh).
  exists k, tail. split; [exact Hc | exact Hh].
Defined.

(** X8: the name [get_valid_name] returns holds no backslash and has no
    blank at either end; [get_available_name] leaves it as it is, and it
    makes no difference whether [get_available_name] ran before. *)
Theorem valid_name_shape (n : string) (ds : gmap string blobstore.Blob) :
  exists r,
    BlobstoreStorage.get_valid_name n ds = (Ok r, ds)
    /\ (forall i, String.get i r <> Some PyStr.backslash)
    /\ PyStr.lstrip r = r
    /\ PyStr.rstrip r = r
    /\ BlobstoreStorage.get_available_name r ds = (Ok r, ds)
    /\ (let* m := BlobstoreStorage.get_available_name n in
        BlobstoreStorage.get_valid_name m) ds = (Ok r, ds).
Proof.
  exists (PyStr.replace_backslash (PyStr.strip n)).
  unfold BlobstoreStorage.get_valid_name, BlobstoreStorage.get_available_name,
    bind, ret.
  repeat split.
  - apply replace_backslash_clean.
  - rewrite lstrip_replace. f_equal. unfold PyStr.strip.
    apply lstrip_rstrip_fixed, lstrip_idem.
  - rewrite rstrip_replace. f_equal. unfold PyStr.strip. apply rstrip_idem.
  - now rewrite replace_backslash_idem.
  - now rewrite strip_replace, replace_backslash_idem.
Qed.

(** ** Handles of the Blobstore back end *)

(** X9: for a name with a non-empty key part, [_open] does not raise and
    does not change the datastore, whether the blob exists or not; the
    handle it returns keeps the name, holds a reference exactly when the key
    part of the name is committed, and its [size] gives what the back end's
    [size] gives for that name, result or error. *)
Theorem open_handle_agrees_with_storage (ds : gmap string blobstore.Blob)
    (n mode : string) :
  PyStr.split_first n <> "" ->
  exists f,
    BlobstoreStorage._open n mode ds = (Ok f, ds)
    /\ BlobstoreFile.name f = n
    /\ (BlobstoreFile.blobstore_info f = None
        <-> ds !! PyStr.split_first n = None)
    /\ BlobstoreFile.size f ds = BlobstoreStorage.size n ds.
Proof.
  intros _. eexists. rewrite _open_lookup, size_lookup. split; [reflexivity|].
  simpl. destruct (ds !! PyStr.split_first n) as [b|]; simpl.
  - repeat split; discriminate.
  - repeat split.
Qed.

Lemma open_handle_agrees_with_storage_witness :
  exists f,
    BlobstoreStorage._open "abc/a.txt" "rb" Sample.ds = (Ok f, Sample.ds)
    /\ BlobstoreFile.size f Sample.ds = (Ok 5, Sample.ds).
Proof.
  destruct (open_handle_agrees_with_storage Sample.ds "abc/a.txt" "rb")
    as (f & Ho & _ & _ & Hs).
  - vm_compute. discriminate.
  - exists f. split; [exact Ho|]. rewrite Hs. vm_compute. reflexivity.
Defined.

(** X10: the property [file] of a handle makes its reader once: the first
    access of a handle that holds a reference returns a reader on the
    reference's key with the cursor at 0, and every later access returns
    that same reader and changes nothing; without a reference the access
    raises. *)
Theorem handle_reader_is_cached (self : BlobstoreFile.t) :
  (forall r self',
     BlobstoreFile.file self = Ok (r, self') ->
     BlobstoreFile.file self' = Ok (r, self')
     /\ BlobstoreFile._file self' = Some r
     /\ BlobstoreFile.blobstore_info self' = BlobstoreFile.blobstore_info self
     /\ BlobstoreFile.name self' = BlobstoreFile.name self)
  /\ (forall bi,
        BlobstoreFile._file self = None ->
        BlobstoreFile.blobstore_info self = Some bi ->
        exists self',
          BlobstoreFile.file self
          = Ok (blobstore.mkBlobReader (blobstore.key bi) 0, self'))
  /\ (BlobstoreFile._file self = None ->
      BlobstoreFile.blobstore_info self = None ->
      BlobstoreFile.file self = Raise AttributeError).
Proof.
  unfold BlobstoreFile.file. split; [|split].
  - intros r self' H. destruct (BlobstoreFile._file self) as [r0|] eqn:E.
    + injection H as <- <-. now rewrite E.
    + destruct (BlobstoreFile.blobstore_info self); [|discriminate].
      injection H as <- <-. repeat split.
  - intros bi H1 H2. rewrite H1, H2. eexists. reflexivity.
  - intros H1 H2. now rewrite H1, H2.
Qed.

Lemma handle_reader_is_cached_witness :
  exists self',
    BlobstoreFile.file
      (BlobstoreFile.mk "abc/a.txt" "rb" (Some Sample.info) None)
    = Ok (blobstore.mkBlobReader (blobstore.mkBlobKey "abc") 0, self')
    /\ BlobstoreFile.file self'
       = Ok (blobstore.mkBlobReader (blobstore.mkBlobKey "abc") 0, self').
Proof.
  destruct (handle_reader_is_cached
              (BlobstoreFile.mk "abc/a.txt" "rb" (Some Sample.info) None))
    as (Hc & Hf & _).
  destruct (Hf Sample.info eq_refl eq_refl) as (self' & Hrun).
  exists self'. split; [exact Hrun|].
  destruct (Hc _ _ Hrun) as (H & _). exact H.
Defined.

(** X11: a handle opened before the blob is deleted keeps the reference it
    loaded: after [delete] its [size] still returns the old size, while the
    back end's [size] for the same name raises, and a read through the
    handle's reader raises [BlobNotFoundError]. *)
Theorem handle_outlives_delete (ds : gmap string blobstore.Blob)
    (n mode : string) (b : blobstore.Blob) (c : Z) :
  ds !! PyStr.split_first n = Some b ->
  exists f ds' r f',
    BlobstoreStorage._open n mode ds = (Ok f, ds)
    /\ BlobstoreStorage.delete n ds = (Ok tt, ds')
    /\ BlobstoreFile.size f ds' = (Ok (blobstore.blob_size b), ds')
    /\ BlobstoreStorage.size n ds' = (Raise AttributeError, ds')
    /\ BlobstoreFile.file f = Ok (r, f')
    /\ blobstore.read c r ds' = (Raise BlobNotFoundError, ds').
Proof.
  intros Hb. do 4 eexists.
  rewrite _open_lookup, delete_lookup, size_lookup, Hb, lookup_delete_eq.
  simpl. repeat split.
  unfold blobstore.read. simpl. now rewrite lookup_delete_eq.
Qed.

Lemma handle_outlives_delete_witness :
  exists f ds',
    BlobstoreStorage._open "abc/a.txt" "rb" Sample.ds = (Ok f, Sample.ds)
    /\ BlobstoreStorage.delete "abc/a.txt" Sample.ds = (Ok tt, ds')
    /\ BlobstoreFile.size f ds' = (Ok 5, ds')
    /\ BlobstoreStorage.size "abc/a.txt" ds' = (Raise AttributeError, ds').
Proof.
  destruct (handle_outlives_delete Sample.ds "abc/a.txt" "rb" Sample.blob 1)
    as (f & ds' & r & f' & Ho & Hd & Hs & Hs' & _).
  - vm_compute. reflexivity.
  - exists f, ds'. repeat split; assumption.
Defined.

(** ** Chunk sizes at the edges *)

Section ChunkEdges.

Import BlobstoreUploadedFile.

Implicit Types (ds : gmap string blobstore.Blob) (u : t).

Lemma read_missing c u ds :
  ds !! blobstore.key_str (blobstore.reader_key (file u)) = None ->
  read c u ds = (Raise BlobNotFoundError, ds).
Proof. intros H. unfold read, blobstore.read, bind. now rewrite H. Qed.

Lemma drop_cons_length {A} (l : list A) p x rest :
  drop p l = x :: rest -> (p + S (length rest) = length l)%nat.
Proof.
  intros H. apply (f_equal length) in H. rewrite length_drop in H.
  simpl in H. lia.
Qed.

(** In a completed run, a chunk that is followed by another one has exactly
    [chunk_size] bytes. *)
Lemma chunks_loop_full fuel : forall c u ds b cs u',
  ds !! blobstore.key_str (blobstore.reader_key (file u)) = Some b ->
  0 < c ->
  chunks_loop fuel c u ds = (Ok (Some cs, u'), ds) ->
  forall i ch, cs !! i = Some ch -> (S i < length cs)%nat ->
               Z.of_nat (length ch) = c.
Proof.
  induction fuel as [|fuel IH]; intros c u ds b cs u' Hds Hc Hrun;
    [discriminate|].
  simpl in Hrun. unfold bind at 1 in Hrun.
  rewrite (read_spec c u ds b Hds) in Hrun. simpl in Hrun.
  rewrite read_out_pos in Hrun by exact Hc.
  set (pos := blobstore.reader_pos (file u)) in *.
  destruct (drop pos (blobstore.blob_data b)) as [|x rest] eqn:Hrest.
  - rewrite take_nil in Hrun. simpl in Hrun. injection Hrun as <- _.
    intros i ch H. now rewrite lookup_nil in H.
  - destruct (Z.to_nat c) as [|n] eqn:Hcn; [lia|]. simpl in Hrun.
    set (u1 := with_file u _) in Hrun.
    unfold bind in Hrun.
    destruct (chunks_loop fuel c u1 ds) as [[[ocs u2]|e] ds2] eqn:Hrec;
      [|discriminate].
    simpl in Hrun. destruct ocs as [cs'|]; [|discriminate].
    injection Hrun as <- _ ->.
    intros [|i] ch Hi Hlen; simpl in Hi, Hlen.
    + injection Hi as <-. simpl.
      destruct (Nat.le_gt_cases n (length rest)) as [Hle|Hgt].
      * rewrite length_take, Nat.min_l by exact Hle. lia.
      * exfalso.
        assert (Hend : drop (pos + S (length rest)) (blobstore.blob_data b) = []).
        { apply drop_ge. apply drop_cons_length in Hrest. lia. }
        unfold u1 in Hrec. rewrite take_ge in Hrec by lia.
        destruct fuel as [|fuel']; [discriminate|].
        simpl in Hrec. unfold bind at 1 in Hrec.
        rewrite (read_spec c _ ds b) in Hrec by exact Hds.
        simpl in Hrec. fold pos in Hrec. rewrite Hend, read_out_nil in Hrec.
        simpl in Hrec. injection Hrec as <- _. simpl in Hlen. lia.
    + apply (IH c u1 ds b cs' u2 Hds Hc Hrec i ch Hi). lia.
Qed.

End ChunkEdges.

(** X12: with a positive chunk size, every chunk that [chunks] yields
    before the last one has exactly [chunk_size] bytes; only the last may be
    shorter. *)
Theorem chunks_full_but_last (ds : gmap string blobstore.Blob)
    (u : BlobstoreUploadedFile.t) (b : blobstore.Blob) (c : Z) (fuel : nat)
    (cs : list bytes) (u' : BlobstoreUploadedFile.t) :
  ds !! blobstore.key_str (blobstore.reader_key (BlobstoreUploadedFile.file u))
    = Some b ->
  0 < c ->
  BlobstoreUploadedFile.chunks fuel c u ds = (Ok (Some cs, u'), ds) ->
  forall i ch, cs !! i = Some ch -> (S i < length cs)%nat ->
               Z.of_nat (length ch) = c.
Proof.
  intros Hds Hc Hrun.
  apply (chunks_loop_full fuel c
           (BlobstoreUploadedFile.with_file u
              (blobstore.seek 0 (BlobstoreUploadedFile.file u))) ds b cs u');
    [exact Hds | exact Hc | exact Hrun].
Qed.

Lemma chunks_full_but_last_witness :
  Z.of_nat (length [x6c; x6c]%byte) = 2.
Proof.
  apply (chunks_full_but_last Sample.ds Sample.uploaded Sample.blob 2 6
           [[x68; x65]; [x6c; x6c]; [x6f]]%byte
           (BlobstoreUploadedFile.with_file Sample.uploaded
              (blobstore.mkBlobReader (blobstore.mkBlobKey "abc") 5))
           ltac:(vm_compute; reflexivity) ltac:(lia)
           ltac:(vm_compute; reflexivity) 1%nat [x6c; x6c]%byte
           ltac:(reflexivity) ltac:(simpl; lia)).
Defined.

(** X13: with chunk size 0 the first read is empty, so [chunks] yields
    nothing, whatever the blob holds; with a negative chunk size the first
    read returns the whole blob, which is the only chunk (none for an empty
    blob). *)
Theorem chunks_degenerate_sizes (ds : gmap string blobstore.Blob)
    (u : BlobstoreUploadedFile.t) (b : blobstore.Blob) (c : Z) (fuel : nat) :
  ds !! blobstore.key_str (blobstore.reader_key (BlobstoreUploadedFile.file u))
    = Some b ->
  (c = 0 ->
   exists u', BlobstoreUploadedFile.chunks (S fuel) c u ds
              = (Ok (Some [], u'), ds))
  /\ (c < 0 ->
      exists u', BlobstoreUploadedFile.chunks (S (S fuel)) c u ds
                 = (Ok (Some (match blobstore.blob_data b with
                              | [] => []
                              | data => [data]
                              end), u'), ds)).
Proof.
  intros Hds. split.
  - intros ->. eexists. unfold BlobstoreUploadedFile.chunks. simpl.
    unfold bind at 1. rewrite (read_spec 0 _ ds b) by exact Hds.
    simpl. reflexivity.
  - intros Hc.
    assert (Hout : forall l, read_out c l = l).
    { intros l. unfold read_out. destruct (Z.ltb_spec c 0); [reflexivity|lia]. }
    destruct (blobstore.blob_data b) as [|x data] eqn:Hdata; eexists;
      unfold BlobstoreUploadedFile.chunks;
      cbn [BlobstoreUploadedFile.chunks_loop]; unfold bind at 1;
      rewrite (read_spec c _ ds b) by exact Hds;
      rewrite Hout; simpl; rewrite Hdata, drop_0; [reflexivity|].
    simpl. unfold bind at 1. unfold bind at 1.
    rewrite (read_spec c _ ds b) by exact Hds.
    rewrite Hout. simpl. rewrite Hdata. simpl. rewrite drop_all. reflexivity.
Qed.

Lemma chunks_degenerate_sizes_witness :
  (exists u', BlobstoreUploadedFile.chunks 1 0 Sample.uploaded Sample.ds
              = (Ok (Some [], u'), Sample.ds))
  /\ (exists u', BlobstoreUploadedFile.chunks 2 (-1) Sample.uploaded Sample.ds
                 = (Ok (Some [Sample.hello], u'), Sample.ds)).
Proof.
  destruct (chunks_degenerate_sizes Sample.ds Sample.uploaded Sample.blob 0 0)
    as [H0 _]; [vm_compute; reflexivity|].
  destruct (chunks_degenerate_sizes Sample.ds Sample.uploaded Sample.blob (-1) 0)
    as [_ H1]; [vm_compute; reflexivity|].
  split; [apply H0; reflexivity | apply H1; lia].
Defined.

(** X14: when the blob behind an uploaded file is not in the datastore (it
    was deleted, say), [chunks] raises [BlobNotFoundError] at its first read
    and yields nothing. *)
Theorem chunks_missing_blob (ds : gmap string blobstore.Blob)
    (u : BlobstoreUploadedFile.t) (c : Z) (fuel : nat) :
  ds !! blobstore.key_str (blobstore.reader_key (BlobstoreUploadedFile.file u))
    = None ->
  BlobstoreUploadedFile.chunks (S fuel) c u ds = (Raise BlobNotFoundError, ds).
Proof.
  intros Hds. unfold BlobstoreUploadedFile.chunks. simpl. unfold bind at 1.
  now rewrite read_missing.
Qed.

Lemma chunks_missing_blob_witness :
  BlobstoreUploadedFile.chunks 6 2 Sample.uploaded ∅ = (Raise BlobNotFoundError, ∅).
Proof.
  apply (chunks_missing_blob ∅ Sample.uploaded 2 5). vm_compute. reflexivity.
Defined.

(** ** From the upload to the stored name *)

Section UploadedNameFacts.

Import PyStr UploadedFile.

Lemma has_slash_get s :
  has_slash s = false <-> (forall i, String.get i s <> Some "/"%char).
Proof.
  induction s as [|c r IH]; simpl.
  - split; [intros _ i; discriminate | reflexivity].
  - split.
    + intros H. apply orb_false_iff in H as [Hc Hr]. intros [|i]; simpl.
      * intros E. injection E as ->. discriminate Hc.
      * now apply IH.
    + intros H. apply orb_false_iff. split.
      * destruct (Ascii.eqb c slash) eqn:E; [|reflexivity].
        apply Ascii.eqb_eq in E. subst c. now destruct (H 0%nat).
      * apply IH. intros i. apply (H (S i)).
Qed.

Lemma basename_no_slash s : has_slash (basename s) = false.
Proof.
  induction s as [|c r IH]; simpl; [reflexivity|].
  destruct (has_slash r) eqn:Hr; [exact IH|].
  destruct (Ascii.eqb c slash) eqn:Hc; [exact Hr|].
  simpl. now rewrite Hc, Hr.
Qed.

(** The base name is what follows the last '/': the rest of the name is
    empty or ends with '/'. *)
Lemma basename_suffix s :
  exists dir, s = dir ++ basename s
              /\ (dir = EmptyString \/ exists d, dir = d ++ "/").
Proof.
  induction s as [|c r IH]; simpl.
  - exists EmptyString. split; [reflexivity | now left].
  - destruct (has_slash r) eqn:Hr.
    + destruct IH as (dir & Heq & Hdir).
      exists (String c dir). split.
      * rewrite string_app_cons. now rewrite <- Heq.
      * right. destruct Hdir as [-> | (d & ->)].
        -- rewrite string_app_empty in Heq.
           rewrite Heq, basename_no_slash in Hr. discriminate.
        -- exists (String c d). now rewrite string_app_cons.
    + destruct (Ascii.eqb c slash) eqn:Hc.
      * apply Ascii.eqb_eq in Hc. subst c.
        exists "/". split; [reflexivity|]. right. now exists EmptyString.
      * exists EmptyString. split; [reflexivity | now left].
Qed.

Lemma basename_length s : (String.length (basename s) <= String.length s)%nat.
Proof.
  destruct (basename_suffix s) as (dir & Heq & _).
  rewrite Heq at 2. rewrite string_app_length. lia.
Qed.

Lemma basename_fixed s : has_slash s = false -> basename s = s.
Proof.
  destruct s as [|c r]; simpl; [reflexivity|].
  intros H. apply orb_false_iff in H as [Hc Hr]. now rewrite Hr, Hc.
Qed.

Lemma _set_name_short s :
  (String.length s <= 255)%nat -> _set_name s = basename s.
Proof.
  intros H. unfold _set_name.
  pose proof (basename_length s) as Hb.
  destruct (Z.ltb_spec 255 (Z.of_nat (String.length (basename s))));
    [lia | reflexivity].
Qed.

End UploadedNameFacts.

(** X15: for a part whose blob key names a committed blob, [new_file]
    short-circuits and [file_complete] returns an uploaded file that takes
    its content type and size from the blob (the [file_size] argument is not
    used), its charset from the part, and as its name what the setter of
    [UploadedFile] makes of the blob's filename: for a filename of at most
    255 characters that is the part after its last '/' (the filename itself
    when it has no '/').  Its [chunks] give the blob's bytes back, and
    [_save] accepts it, naming it after the key. *)
Theorem short_circuit_end_to_end
    (args : BlobstoreFileUploadHandler.part_meta)
    (h : BlobstoreFileUploadHandler.t) (k : string)
    (ds : gmap string blobstore.Blob) (b : blobstore.Blob)
    (file_size c : Z) (fuel : nat) :
  BlobstoreFileUploadHandler.pm_content_type_extra args !! "blob-key" = Some k ->
  ds !! k = Some b ->
  0 < c ->
  (length (blobstore.blob_data b) < fuel)%nat ->
  exists h' f cs f',
    BlobstoreFileUploadHandler.new_file args h = (Raise StopFutureHandlers, h')
    /\ BlobstoreFileUploadHandler.file_complete file_size h' ds
       = (Ok (Some f), ds)
    /\ ((String.length (blobstore.blob_filename b) <= 255)%nat ->
        BlobstoreUploadedFile.name f
        = UploadedFile.basename (blobstore.blob_filename b)
        /\ (forall i, String.get i (BlobstoreUploadedFile.name f) <> Some "/"%char)
        /\ (exists dir,
              blobstore.blob_filename b = dir ++ BlobstoreUploadedFile.name f
              /\ (dir = "" \/ exists d, dir = d ++ "/"))
        /\ ((forall i, String.get i (blobstore.blob_filename b) <> Some "/"%char) ->
            BlobstoreUploadedFile.name f = blobstore.blob_filename b))
    /\ BlobstoreUploadedFile.content_type f = blobstore.blob_content_type b
    /\ BlobstoreUploadedFile.size f = blobstore.blob_size b
    /\ BlobstoreUploadedFile.charset f
       = BlobstoreFileUploadHandler.pm_charset args
    /\ blobstore.key (BlobstoreUploadedFile.blobstore_info f)
       = blobstore.mkBlobKey k
    /\ BlobstoreUploadedFile.chunks fuel c f ds = (Ok (Some cs, f'), ds)
    /\ List.concat cs = blobstore.blob_data b
    /\ (forall name,
          BlobstoreStorage._save name (BlobstoreUploadedFile.as_file_like f) ds
          = (Ok (k ++ "/" ++ PyStr.lstrip_slash (PyStr.replace_backslash name)),
             ds)).
Proof.
  intros Hk Hds Hc Hfuel.
  set (f := BlobstoreUploadedFile.mk
              (blobstore.BlobReader_of_key (blobstore.mkBlobKey k))
              (UploadedFile._set_name (blobstore.blob_filename b))
              (blobstore.blob_content_type b)
              (blobstore.blob_size b)
              (BlobstoreFileUploadHandler.pm_charset args)
              (blobstore.BlobInfo_of_key (blobstore.mkBlobKey k))).
  destruct (chunks_loop_spec fuel c
              (BlobstoreUploadedFile.with_file f
                 (blobstore.seek 0 (BlobstoreUploadedFile.file f))) ds b)
    as (cs & Hloop & Hcat & _).
  { simpl. exact Hds. }
  { now left. }
  { simpl. lia. }
  { simpl. lia. }
  simpl in Hcat. rewrite drop_0 in Hcat.
  eexists _, f, cs, _.
  unfold BlobstoreFileUploadHandler.new_file. rewrite Hk. simpl.
  split; [reflexivity|]. split.
  { unfold BlobstoreFileUploadHandler.file_complete. simpl.
    unfold BlobstoreUploadedFile.__init__, blobstore.filename,
      blobstore.content_type, blobstore.size, bind, blobstore.get_value.
    simpl. rewrite Hds. simpl. rewrite Hds. simpl. rewrite Hds. reflexivity. }
  split.
  { intros Hlen. simpl. rewrite (_set_name_short _ Hlen).
    split; [reflexivity|]. split; [|split].
    - apply has_slash_get, basename_no_slash.
    - apply basename_suffix.
    - intros Hns. apply basename_fixed. now apply has_slash_get. }
  repeat split; try assumption. exact Hloop.
Qed.

Lemma short_circuit_end_to_end_witness :
  exists h' f,
    BlobstoreFileUploadHandler.new_file (Sample.part {[ "blob-key" := "abc" ]})
      BlobstoreFileUploadHandler.initial = (Raise StopFutureHandlers, h')
    /\ BlobstoreFileUploadHandler.file_complete 0 h' SamplePath.ds
       = (Ok (Some f), SamplePath.ds)
    /\ BlobstoreUploadedFile.name f = "a.txt"
    /\ BlobstoreUploadedFile.size f = 5.
Proof.
  destruct (short_circuit_end_to_end (Sample.part {[ "blob-key" := "abc" ]})
              BlobstoreFileUploadHandler.initial "abc" SamplePath.ds
              SamplePath.blob 0 2 6)
    as (h' & f & cs & f' & Hn & Hc & Hname & _ & Hs & _).
  - vm_compute. reflexivity.
  - vm_compute. reflexivity.
  - lia.
  - simpl. lia.
  - exists h', f. split; [exact Hn|]. split; [exact Hc|].
    split; [|exact Hs].
    destruct Hname as (Hname & _); [simpl; lia|].
    rewrite Hname. vm_compute. reflexivity.
Defined.

(** ** More on [serve_file] *)

(** X16: whenever [serve_file] returns a response, it carries the
    'Content-Type' header the constructor stored (the type asked for, the
    default one for [None]), the blob-key header and 'Accept-Ranges: bytes',
    and no header besides these and the blob-range, 'Content-Disposition'
    and 'Content-Length' ones. *)
Theorem serve_file_sets_only_its_headers (request : HttpRequest)
    (file : file_like) (save_as content_type : option string)
    (ds ds' : gmap string blobstore.Blob) (resp : HttpResponse) :
  serve_file request file save_as content_type ds = (Ok resp, ds') ->
  (content_type = None ->
   resp_headers resp !! "Content-Type" = Some (HStr "text/html; charset=utf-8"))
  /\ (forall ct, content_type = Some ct -> ct <> "" ->
      resp_headers resp !! "Content-Type" = Some (HStr ct))
  /\ is_Some (resp_headers resp !! "X-AppEngine-BlobKey")
  /\ resp_headers resp !! "Accept-Ranges" = Some (HStr "bytes")
  /\ forall name,
       is_Some (resp_headers resp !! name) ->
       name = "Content-Type" \/ name = "X-AppEngine-BlobKey"
       \/ name = "Accept-Ranges" \/ name = "X-AppEngine-BlobRange"
       \/ name = "Content-Disposition" \/ name = "Content-Length".
Proof.
  unfold serve_file, bind, lift.
  destruct (match inner_info file with
            | Some v => call_key v
            | None => match fl_blobstore_info file with
                      | Some v => call_key v
                      | None => Raise ValueError
                      end
            end) as [key|e]; [|discriminate].
  unfold blobstore.BLOB_KEY_HEADER, blobstore.BLOB_RANGE_HEADER.
  assert (Hshape : forall hs : gmap string header_value,
            (exists v1 v2 o3 o4 o5,
               hs = (match o5 with Some v => <["Content-Length" := v]> | None => id end)
                      ((match o4 with Some v => <["Content-Disposition" := v]> | None => id end)
                         ((match o3 with Some v => <["X-AppEngine-BlobRange" := v]> | None => id end)
                            (<["Accept-Ranges" := HStr "bytes"]>
                               (<["X-AppEngine-BlobKey" := v2]>
                                  {["Content-Type" := v1]}))))
               /\ v1 = HStr (match content_type with
                             | Some s => s
                             | None => DEFAULT_CONTENT_TYPE
                             end)) ->
            (content_type = None ->
             hs !! "Content-Type" = Some (HStr "text/html; charset=utf-8"))
            /\ (forall ct, content_type = Some ct -> ct <> "" ->
                hs !! "Content-Type" = Some (HStr ct))
            /\ is_Some (hs !! "X-AppEngine-BlobKey")
            /\ hs !! "Accept-Ranges" = Some (HStr "bytes")
            /\ forall name,
                 is_Some (hs !! name) ->
                 name = "Content-Type" \/ name = "X-AppEngine-BlobKey"
                 \/ name = "Accept-Ranges" \/ name = "X-AppEngine-BlobRange"
                 \/ name = "Content-Disposition" \/ name = "Content-Length").
  { intros hs (v1 & v2 & o3 & o4 & o5 & -> & ->).
    destruct o3, o4, o5; simpl;
      (split; [intros ->; (by simplify_map_eq)|]);
      (split; [intros ct -> _; (by simplify_map_eq)|]);
      (split; [eexists; by simplify_map_eq|]);
      (split; [by simplify_map_eq|]);
      intros name [v Hv];
      repeat (rewrite lookup_insert in Hv; case_decide; [subst; auto 10|]);
      rewrite lookup_singleton in Hv;
      (case_decide; [subst; auto 10|]);
      discriminate. }
  destruct (fl_size file ds) as [[[n|]|e] ds1]; [| |discriminate].
  - destruct (fl_size file ds1) as [[sz|e] ds2]; [|discriminate].
    unfold ret. intros H. injection H as <- _. apply Hshape.
    exists (HStr (match content_type with
                  | Some s => s
                  | None => DEFAULT_CONTENT_TYPE
                  end)), (HStr (blobstore.key_str key)),
      (HStr <$> META request !! "HTTP_RANGE"),
      (match save_as with
       | Some s => if PyStr.nonempty s
                   then Some (HStr ("attachment; filename=" ++ s)) else None
       | None => None
       end),
      (Some (match sz with Some n0 => HInt n0 | None => HNone end)).
    split; [|reflexivity].
    destruct (META request !! "HTTP_RANGE"); destruct save_as as [[|c0 s0]|];
      reflexivity.
  - unfold ret. intros H. injection H as <- _. apply Hshape.
    exists (HStr (match content_type with
                  | Some s => s
                  | None => DEFAULT_CONTENT_TYPE
                  end)), (HStr (blobstore.key_str key)),
      (HStr <$> META request !! "HTTP_RANGE"),
      (match save_as with
       | Some s => if PyStr.nonempty s
                   then Some (HStr ("attachment; filename=" ++ s)) else None
       | None => None
       end), None.
    split; [|reflexivity].
    destruct (META request !! "HTTP_RANGE"); destruct save_as as [[|c0 s0]|];
      reflexivity.
Qed.

Lemma serve_file_sets_only_its_headers_witness :
  exists resp,
    serve_file Sample.request
      (BlobstoreUploadedFile.as_file_like Sample.uploaded) None None Sample.ds
    = (Ok resp, Sample.ds)
    /\ resp_headers resp !! "Content-Type"
       = Some (HStr "text/html; charset=utf-8")
    /\ resp_headers resp !! "Accept-Ranges" = Some (HStr "bytes").
Proof.
  assert (H : exists resp,
             serve_file Sample.request
               (BlobstoreUploadedFile.as_file_like Sample.uploaded) None None
               Sample.ds = (Ok resp, Sample.ds)).
  { eexists. reflexivity. }
  destruct H as [resp H]. exists resp. split; [exact H|].
  destruct (serve_file_sets_only_its_headers Sample.request
              (BlobstoreUploadedFile.as_file_like Sample.uploaded) None None
              Sample.ds Sample.ds resp H) as (Hct & _ & _ & Ha & _).
  split; [apply Hct; reflexivity | exact Ha].
Defined.

(** X17: serving a handle that [_open] returned for a name with a
    non-empty key part.  When the key part is committed, the response
    carries that key part as the blob key and the blob's size as
    'Content-Length'; when it is not, [serve_file] raises [AttributeError]
    (the handle has a [blobstore_info], which is [None]), not the
    [ValueError] of an unsupported file. *)
Theorem serve_opened_handle (ds : gmap string blobstore.Blob) (n mode : string)
    (request : HttpRequest) (save_as content_type : option string) :
  PyStr.split_first n <> "" ->
  (forall b, ds !! PyStr.split_first n = Some b ->
     exists f resp,
       BlobstoreStorage._open n mode ds = (Ok f, ds)
       /\ serve_file request (BlobstoreFile.as_file_like f) save_as content_type ds
          = (Ok resp, ds)
       /\ resp_headers resp !! blobstore.BLOB_KEY_HEADER
          = Some (HStr (PyStr.split_first n))
       /\ resp_headers resp !! "Content-Length"
          = Some (HInt (blobstore.blob_size b)))
  /\ (ds !! PyStr.split_first n = None ->
      exists f,
        BlobstoreStorage._open n mode ds = (Ok f, ds)
        /\ serve_file request (BlobstoreFile.as_file_like f) save_as content_type ds
           = (Raise AttributeError, ds)).
Proof.
  intros _. split.
  - intros b Hb. rewrite _open_lookup, Hb. simpl.
    destruct (META request !! "HTTP_RANGE") as [r|] eqn:Hr;
      destruct save_as as [[|c s]|];
      do 2 eexists; (split; [reflexivity|]);
      unfold serve_file, bind, lift, blobstore.BLOB_KEY_HEADER,
        blobstore.BLOB_RANGE_HEADER; simpl; rewrite Hr; simpl;
      (split; [reflexivity|]); unfold set_header, HttpResponse_new; simpl;
      split; by simplify_map_eq.
  - intros Hb. rewrite _open_lookup, Hb. simpl. eexists.
    split; reflexivity.
Qed.

Lemma serve_opened_handle_witness :
  (exists f resp,
     BlobstoreStorage._open "abc/a.txt" "rb" Sample.ds = (Ok f, Sample.ds)
     /\ serve_file Sample.request (BlobstoreFile.as_file_like f) None None Sample.ds
        = (Ok resp, Sample.ds)
     /\ resp_headers resp !! "Content-Length" = Some (HInt 5))
  /\ (exists f,
        BlobstoreStorage._open "gone/a.txt" "rb" Sample.ds = (Ok f, Sample.ds)
        /\ serve_file Sample.request (BlobstoreFile.as_file_like f) None None
             Sample.ds = (Raise AttributeError, Sample.ds)).
Proof.
  split.
  - destruct (serve_opened_handle Sample.ds "abc/a.txt" "rb" Sample.request
                None None) as [H _]; [vm_compute; discriminate|].
    destruct (H Sample.blob) as (f & resp & Ho & Hs & _ & Hl).
    + vm_compute. reflexivity.
    + exists f, resp. repeat split; assumption.
  - destruct (serve_opened_handle Sample.ds "gone/a.txt" "rb" Sample.request
                None None) as [_ H]; [vm_compute; discriminate|].
    apply H. vm_compute. reflexivity.
Defined.

(** ** More on the Cloud Storage back end *)

Section CloudLoops.

Implicit Types (fs : files.FileSystem) (f : files.handle).

Lemma files_read_spec n f fs D :
  files.objects fs !! files.h_path f = Some D ->
  files.read n f fs
  = (Ok (read_out n (drop (files.h_pos f) D),
         files.mkHandle (files.h_path f) (files.h_mode f)
           (files.h_pos f + length (read_out n (drop (files.h_pos f) D)))), fs).
Proof. intros H. unfold files.read, read_out. now rewrite H. Qed.

Lemma read_out_one l : read_out 1 l = take 1 l.
Proof. reflexivity. Qed.

(** Where one more byte-sized read leaves the loops: the facts both loops
    need about the next [data] and cursor. *)
Lemma read_one_step (D : bytes) (p fuel : nat) :
  (p <= length D)%nat ->
  (length D - p < S fuel)%nat ->
  let data' := take 1 (drop p D) in
  (p + length data' <= length D)%nat
  /\ (data' = [] -> (p + length data')%nat = length D)
  /\ (data' <> [] -> (length D - (p + length data') < fuel)%nat)
  /\ (data' ++ drop (p + length data') D)%list = drop p D.
Proof.
  intros Hp Hfuel data'. unfold data'.
  assert (Hlen := length_drop D p).
  assert (Hcat : (take 1 (drop p D)
                  ++ drop (p + length (take 1 (drop p D))) D)%list = drop p D).
  { rewrite <- drop_drop. apply take_drop_taken. }
  destruct (drop p D) as [|x rest] eqn:Hrest; simpl in *.
  - split; [lia|]. split; [lia|]. split; [intros H; now destruct H|].
    exact Hcat.
  - rewrite take_0 in *. simpl in *.
    split; [lia|]. split; [discriminate|]. split; [lia|]. exact Hcat.
Qed.

Lemma size_loop_spec fuel : forall data f fs D,
  files.objects fs !! files.h_path f = Some D ->
  (files.h_pos f <= length D)%nat ->
  (data = [] -> files.h_pos f = length D) ->
  (data <> [] -> (length D - files.h_pos f < fuel)%nat) ->
  CloudStorage.size_loop fuel data f fs
  = (Ok (Some (files.mkHandle (files.h_path f) (files.h_mode f) (length D))), fs).
Proof.
  induction fuel as [|fuel IH]; intros data f fs D HD Hp Hnil Hfuel;
    destruct data as [|x data].
  - simpl. destruct f as [path m p]. simpl in *. now rewrite Hnil.
  - assert (x :: data <> []) by discriminate. specialize (Hfuel H). lia.
  - simpl. destruct f as [path m p]. simpl in *. now rewrite Hnil.
  - cbn [CloudStorage.size_loop]. unfold bind.
    rewrite (files_read_spec 1 f fs D HD), read_out_one. cbn [fst snd].
    assert (Hx : x :: data <> []) by discriminate.
    destruct (read_one_step D (files.h_pos f) fuel Hp (Hfuel Hx))
      as (H1 & H2 & H3 & _).
    rewrite (IH _ _ fs D); simpl; auto.
Qed.

Lemma _open_loop_spec fuel : forall data f file_data fs D,
  files.objects fs !! files.h_path f = Some D ->
  (files.h_pos f <= length D)%nat ->
  (data = [] -> files.h_pos f = length D) ->
  (data <> [] -> (length D - files.h_pos f < fuel)%nat) ->
  exists file_data',
    CloudStorage._open_loop fuel data f file_data fs = (Ok (Some file_data'), fs)
    /\ List.concat file_data'
       = (List.concat file_data ++ drop (files.h_pos f) D)%list.
Proof.
  induction fuel as [|fuel IH]; intros data f file_data fs D HD Hp Hnil Hfuel;
    destruct data as [|x data].
  - exists file_data. split; [reflexivity|].
    rewrite Hnil, drop_all, app_nil_r by reflexivity. reflexivity.
  - assert (x :: data <> []) by discriminate. specialize (Hfuel H). lia.
  - exists file_data. split; [reflexivity|].
    rewrite Hnil, drop_all, app_nil_r by reflexivity. reflexivity.
  - cbn [CloudStorage._open_loop]. unfold bind.
    rewrite (files_read_spec 1 f fs D HD), read_out_one. cbn [fst snd].
    assert (Hx : x :: data <> []) by discriminate.
    destruct (read_one_step D (files.h_pos f) fuel Hp (Hfuel Hx))
      as (H1 & H2 & H3 & H4).
    destruct (IH (take 1 (drop (files.h_pos f) D))
                 (files.mkHandle (files.h_path f) (files.h_mode f)
                    (files.h_pos f + length (take 1 (drop (files.h_pos f) D))))
                 (file_data ++ [take 1 (drop (files.h_pos f) D)])%list fs D)
      as (fd & Hrun & Hcat); simpl; auto.
    exists fd. split; [exact Hrun|].
    rewrite Hcat. simpl. rewrite concat_app. simpl.
    rewrite app_nil_r, <- app_assoc. f_equal. exact H4.
Qed.

Lemma save_run (self : CloudStorage.t) name (content : StringIO) fs :
  CloudStorage.save self name content fs
  = (Ok name,
     files.mkFS
       (<[CloudStorage.location self ++ name :=
            drop (sio_pos content) (sio_buf content)]> (files.objects fs))
       (base.delete (CloudStorage.location self ++ name)
          (<[CloudStorage.location self ++ name :=
               drop (sio_pos content) (sio_buf content)]>
             (<[CloudStorage.location self ++ name := []]>
                (files.writable fs))))).
Proof.
  unfold CloudStorage.save, bind, files.gs_create, files.open, files.write,
    files.finalize, StringIO_read_all, ret. simpl.
  rewrite lookup_insert_eq. simpl.
  rewrite lookup_insert_eq. simpl. rewrite lookup_insert_eq. reflexivity.
Qed.

Lemma string_app_inv_head (s t1 t2 : string) : s ++ t1 = s ++ t2 -> t1 = t2.
Proof.
  induction s as [|c s IH]; intros H.
  - exact H.
  - rewrite !string_app_cons in H. injection H as H. now apply IH.
Qed.

End CloudLoops.

(** X18: what [save] stores can be read back.  [save] writes what
    [content.read()] returns, the bytes from the content's cursor on, and
    replaces whatever the name held; afterwards [exists] is true, [size] is
    the number of those bytes and the bytes [_open] collects are those
    bytes, once the fuel covers their number. *)
Theorem cloud_save_read_back (self : CloudStorage.t) (name : string)
    (content : StringIO) (fs : files.FileSystem) (fuel : nat) :
  (length (sio_buf content) - sio_pos content <= fuel)%nat ->
  exists fs',
    CloudStorage.save self name content fs = (Ok name, fs')
    /\ files.objects fs' !! (CloudStorage.location self ++ name)
       = Some (drop (sio_pos content) (sio_buf content))
    /\ files.writable fs' !! (CloudStorage.location self ++ name) = None
    /\ CloudStorage.exists_ self name fs' = (Ok true, fs')
    /\ CloudStorage.size fuel self name fs'
       = (Ok (Some (Z.of_nat (length (drop (sio_pos content) (sio_buf content))))),
          fs')
    /\ CloudStorage._open_data fuel self name fs'
       = (Ok (Some (drop (sio_pos content) (sio_buf content))), fs').
Proof.
  intros Hfuel. eexists. split; [apply save_run|].
  set (D := drop (sio_pos content) (sio_buf content)).
  assert (HlenD : (length D <= fuel)%nat).
  { unfold D. rewrite length_drop. exact Hfuel. }
  remember (files.mkFS _ _) as fs' eqn:Hfs'.
  assert (Hobj : files.objects fs' !! (CloudStorage.location self ++ name)
                 = Some D).
  { rewrite Hfs'. simpl. apply lookup_insert_eq. }
  assert (Hwr : files.writable fs' !! (CloudStorage.location self ++ name)
                = None).
  { rewrite Hfs'. simpl. apply lookup_delete_eq. }
  clear Hfs'.
  assert (Hfirst : forall m,
            let f := files.mkHandle (CloudStorage.location self ++ name) m 0 in
            let f1 := files.mkHandle (CloudStorage.location self ++ name) m
                        (0 + length (take 1 (drop 0 D))) in
            files.read 1 f fs' = (Ok (take 1 (drop 0 D), f1), fs')
            /\ (files.h_pos f1 <= length D)%nat
            /\ (take 1 (drop 0 D) = [] -> files.h_pos f1 = length D)
            /\ (take 1 (drop 0 D) <> [] ->
                (length D - files.h_pos f1 < fuel)%nat)
            /\ (take 1 (drop 0 D) ++ drop (files.h_pos f1) D)%list = D).
  { intros m f f1. split.
    - apply (files_read_spec 1 f fs' D). exact Hobj.
    - destruct (read_one_step D 0 fuel) as (H1 & H2 & H3 & H4); [lia|lia|].
      unfold f1. simpl files.h_pos. rewrite drop_0 in H4. auto. }
  repeat split.
  - exact Hobj.
  - exact Hwr.
  - unfold CloudStorage.exists_. now rewrite (open_read_present _ _ _ _ Hobj).
  - unfold CloudStorage.size, bind.
    rewrite (open_read_present _ _ _ _ Hobj).
    destruct (Hfirst files.ModeR) as (Hr & H1 & H2 & H3 & _).
    rewrite Hr. cbn [fst snd].
    rewrite (size_loop_spec fuel _ _ fs' D); auto.
  - unfold CloudStorage._open_data, bind.
    rewrite (open_read_present _ _ _ _ Hobj).
    destruct (Hfirst files.ModeR) as (Hr & H1 & H2 & H3 & H4).
    rewrite Hr. cbn [fst snd].
    destruct (_open_loop_spec fuel (take 1 (drop 0 D))
                (files.mkHandle (CloudStorage.location self ++ name)
                   files.ModeR (0 + length (take 1 (drop 0 D))))
                [take 1 (drop 0 D)] fs' D) as (fd & Hrun & Hcat); auto.
    rewrite Hrun. unfold ret. simpl. do 3 f_equal.
    rewrite Hcat. simpl. rewrite app_nil_r. exact H4.
Qed.

Lemma cloud_save_read_back_witness :
  exists fs',
    CloudStorage.save Sample.bucket "hello.txt" (StringIO_new Sample.hello)
      files.empty_fs = (Ok "hello.txt", fs')
    /\ CloudStorage.size 5 Sample.bucket "hello.txt" fs' = (Ok (Some 5), fs')
    /\ CloudStorage._open_data 5 Sample.bucket "hello.txt" fs'
       = (Ok (Some Sample.hello), fs').
Proof.
  destruct (cloud_save_read_back Sample.bucket "hello.txt"
              (StringIO_new Sample.hello) files.empty_fs 5)
    as (fs' & Hs & _ & _ & _ & Hsz & Hop).
  - simpl. lia.
  - exists fs'. repeat split; assumption.
Defined.

(** X19: for a name that was never created, [exists] catches the
    [ExistenceError] of the files service and returns [False], while [size]
    and [_open] let it through. *)
Theorem cloud_missing_name (self : CloudStorage.t) (name : string)
    (fs : files.FileSystem) (fuel : nat) :
  files.objects fs !! (CloudStorage.location self ++ name) = None ->
  files.writable fs !! (CloudStorage.location self ++ name) = None ->
  CloudStorage.exists_ self name fs = (Ok false, fs)
  /\ CloudStorage.size fuel self name fs = (Raise ExistenceError, fs)
  /\ CloudStorage._open fuel self name fs = (Raise ExistenceError, fs).
Proof.
  intros Ho Hw.
  assert (Hopen : files.open (CloudStorage.location self ++ name) files.ModeR fs
                  = (Raise ExistenceError, fs)).
  { unfold files.open. now rewrite Ho, Hw. }
  unfold CloudStorage.exists_, CloudStorage.size, CloudStorage._open,
    CloudStorage._open_data, bind.
  rewrite Hopen. repeat split.
Qed.

Lemma cloud_missing_name_witness :
  CloudStorage.exists_ Sample.bucket "nothing.txt" files.empty_fs
  = (Ok false, files.empty_fs)
  /\ CloudStorage.size 3 Sample.bucket "nothing.txt" files.empty_fs
     = (Raise ExistenceError, files.empty_fs).
Proof.
  destruct (cloud_missing_name Sample.bucket "nothing.txt" files.empty_fs 3)
    as (He & Hs & _).
  - vm_compute. reflexivity.
  - vm_compute. reflexivity.
  - split; [exact He | exact Hs].
Defined.

(** X20: [save] under one name leaves every other name as it was: what is
    stored and what is open for writing under another name do not change,
    and [exists] answers for it as before. *)
Theorem cloud_save_keeps_other_names (self : CloudStorage.t)
    (name other : string) (content : StringIO) (fs : files.FileSystem) :
  other <> name ->
  let fs' := snd (CloudStorage.save self name content fs) in
  files.objects fs' !! (CloudStorage.location self ++ other)
  = files.objects fs !! (CloudStorage.location self ++ other)
  /\ files.writable fs' !! (CloudStorage.location self ++ other)
     = files.writable fs !! (CloudStorage.location self ++ other)
  /\ fst (CloudStorage.exists_ self other fs')
     = fst (CloudStorage.exists_ self other fs).
Proof.
  intros Hne fs'. unfold fs'. rewrite save_run. simpl.
  assert (Hp : CloudStorage.location self ++ name
               <> CloudStorage.location self ++ other).
  { intros H. apply string_app_inv_head in H. congruence. }
  assert (Ho : forall d (m : gmap string bytes),
            <[CloudStorage.location self ++ name := d]> m
              !! (CloudStorage.location self ++ other)
            = m !! (CloudStorage.location self ++ other)).
  { intros d m. now apply lookup_insert_ne. }
  assert (Hw : forall d (m : gmap string bytes),
            base.delete (CloudStorage.location self ++ name)
              (<[CloudStorage.location self ++ name := d]>
                 (<[CloudStorage.location self ++ name := []]> m))
              !! (CloudStorage.location self ++ other)
            = m !! (CloudStorage.location self ++ other)).
  { intros d m. rewrite lookup_delete_ne by exact Hp. now rewrite !Ho. }
  split; [apply Ho|]. split; [apply Hw|].
  unfold CloudStorage.exists_, files.open. simpl. rewrite Ho, Hw.
  destruct (files.objects fs !! (CloudStorage.location self ++ other));
    [reflexivity|].
  destruct (files.writable fs !! (CloudStorage.location self ++ other));
    reflexivity.
Qed.

Lemma cloud_save_keeps_other_names_witness :
  fst (CloudStorage.exists_ Sample.bucket "b.txt"
         (snd (CloudStorage.save Sample.bucket "a.txt"
                 (StringIO_new Sample.hello) files.empty_fs)))
  = fst (CloudStorage.exists_ Sample.bucket "b.txt" files.empty_fs).
Proof.
  destruct (cloud_save_keeps_other_names Sample.bucket "a.txt" "b.txt"
              (StringIO_new Sample.hello) files.empty_fs) as (_ & _ & H).
  - discriminate.
  - exact H.
Defined.

(** X21: a [CloudStorage] cannot be built without the bucket setting; built
    for a bucket, it stores a name under '/gs/<bucket>/<name>' and gives it
    the address '//<bucket>.commondatastorage.googleapis.com/<name>', so
    that two names share neither the stored path nor the address. *)
Theorem cloud_storage_addresses (bucket_setting : option string)
    (n1 n2 : string) :
  match CloudStorage.__init__ bucket_setting with
  | Raise e => bucket_setting = None /\ e = ImproperlyConfigured
  | Ok self =>
      exists b,
        bucket_setting = Some b
        /\ CloudStorage.url self n1
           = "//" ++ b ++ ".commondatastorage.googleapis.com/" ++ n1
        /\ CloudStorage.location self ++ n1 = "/gs/" ++ b ++ "/" ++ n1
        /\ (CloudStorage.url self n1 = CloudStorage.url self n2 -> n1 = n2)
        /\ (CloudStorage.location self ++ n1 = CloudStorage.location self ++ n2
            -> n1 = n2)
  end.
Proof.
  destruct bucket_setting as [b|]; simpl; [|split; reflexivity].
  exists b. unfold CloudStorage.url. simpl.
  assert (Hassoc : forall a c d : string, (a ++ c) ++ d = a ++ c ++ d).
  { intros a c d. induction a as [|x a IH]; [reflexivity|].
    rewrite !string_app_cons. now rewrite IH. }
  repeat split.
  - now rewrite !Hassoc.
  - now rewrite !Hassoc.
  - apply string_app_inv_head.
  - apply string_app_inv_head.
Qed.

Lemma cloud_storage_addresses_witness :
  exists self,
    CloudStorage.__init__ (Some "b") = Ok self
    /\ (CloudStorage.url self "a.txt" = CloudStorage.url self "a.txt"
        -> "a.txt" = "a.txt").
Proof.
  exists Sample.bucket. split; [reflexivity|].
  pose proof (cloud_storage_addresses (Some "b") "a.txt" "a.txt") as H.
  simpl in H. destruct H as (b & _ & _ & _ & Hu & _). exact Hu.
Defined.
